(** * JLCPCB parts server: a shallow embedding of [server.py]

    The development follows the layout of the source file: Python values
    and exceptions, the collaborators the server is handed (store, JSON
    decoder, URL tools, image constructor), the lookup operations, the
    image selector [get_part_image], the filter record [SearchQuery] and
    [search_parts] with its two per-row decoders.  Theorems come last. *)

From Stdlib Require Import ZArith String List Ascii Bool Lia DecimalString.
Import ListNotations.
Open Scope string_scope.
Open Scope Z_scope.

(** ** Python values

    Everything the server touches at run time is a Python object:
    [sqlite3] hands back tuples of [None]/[int]/[float]/[str]/[bytes],
    [json.loads] hands back [None]/[bool]/[int]/[float]/[str]/[list]/[dict].
    A [float] is carried as its [repr] text: the shortest decimal that
    round-trips determines the binary64 value and is what [str()] prints.
    A [dict] is an association list in insertion order, which is the
    iteration order of Python dicts; keys of decoded JSON are strings. *)

#[warning="-register-all"]
Inductive value : Type :=
| PyNone
| PyBool (b : bool)
| PyInt (z : Z)
| PyFloat (repr : string)
| PyStr (s : string)
| PyBytes (b : string)
| PyList (l : list value)
| PyDict (kvs : list (string * value)).

(** Exception classes that the code can meet; all derive from
    [Exception], so every one of them is caught by [except Exception]. *)
Inductive exn : Type :=
| JSONDecodeError
| TypeError
| KeyError (k : string)
| IndexError
| AttributeError
| ValueError
| OperationalError (msg : string)   (* sqlite3 *)
| URLError (msg : string).          (* urllib *)

Inductive outcome (A : Type) : Type :=
| Returns (a : A)
| Raises (e : exn).
Arguments Returns {A} a.
Arguments Raises {A} e.

(** Sequencing of steps that may raise: the first exception wins. *)
Definition and_then {A B} (o : outcome A) (k : A -> outcome B) : outcome B :=
  match o with
  | Returns a => k a
  | Raises e => Raises e
  end.

Notation "'let?' x := o 'in' k" := (and_then o (fun x => k))
  (at level 10, x pattern, o at level 100, k at level 200).

(** ** The cursor of a query

    [conn.execute] hands back a cursor, and its rows are drawn one at a
    time while the caller loops or calls [fetchone]: the store can fail
    at the call or at any later row.  A cursor is the rows it yields, in
    order, ending either exhausted or with the exception that breaks it;
    a failure of the call itself is a cursor broken before its first
    row. *)
Inductive cursor : Type :=
| Exhausted
| Broken (e : exn)
| Yield (r : list value) (next : cursor).

(** The cursor that yields [rows] and then goes on as [tail]. *)
Fixpoint rows_then (rows : list (list value)) (tail : cursor) : cursor :=
  match rows with
  | [] => tail
  | r :: rest => Yield r (rows_then rest tail)
  end.

(** A cursor drawn to its end: all its rows, or the exception that
    breaks it. *)
Fixpoint drain (c : cursor) : outcome (list (list value)) :=
  match c with
  | Exhausted => Returns []
  | Broken e => Raises e
  | Yield r next => let? rows := drain next in Returns (r :: rows)
  end.

(** The rows a cursor yields before it ends or breaks. *)
Fixpoint yielded (c : cursor) : list (list value) :=
  match c with
  | Exhausted => []
  | Broken _ => []
  | Yield r next => r :: yielded next
  end.

(** ** The effect monad: exceptions plus the [sys.stderr] log

    [print(e, file=sys.stderr)] appends [e] to the log and is taken to
    succeed; a raised exception keeps whatever was printed before it. *)

Definition stderr := list exn.
Definition M (A : Type) : Type := stderr -> outcome A * stderr.

Definition ret {A} (a : A) : M A := fun log => (Returns a, log).
Definition raise {A} (e : exn) : M A := fun log => (Raises e, log).
Definition lift {A} (o : outcome A) : M A := fun log => (o, log).
Definition bind {A B} (m : M A) (f : A -> M B) : M B :=
  fun log =>
    match m log with
    | (Returns a, log') => f a log'
    | (Raises e, log') => (Raises e, log')
    end.
Definition print_stderr (e : exn) : M unit := fun log => (Returns tt, (log ++ [e])%list).
Definition try_except {A} (body : M A) (handler : exn -> M A) : M A :=
  fun log =>
    match body log with
    | (Returns a, log') => (Returns a, log')
    | (Raises e, log') => handler e log'
    end.

Notation "x <- m ;; k" := (bind m (fun x => k))
  (at level 61, m at next level, right associativity).
Notation "m ;;; k" := (bind m (fun _ => k))
  (at level 61, right associativity).

(** ** Strings *)

Definition join (sep : string) (parts : list string) : string := String.concat sep parts.

Definition string_of_Z (z : Z) : string := NilZero.string_of_int (Z.to_int z).

Fixpoint contains (needle hay : string) : bool :=
  prefix needle hay ||
  match hay with
  | EmptyString => false
  | String _ rest => contains needle rest
  end.

Fixpoint count_char (c : ascii) (s : string) : nat :=
  match s with
  | EmptyString => 0%nat
  | String a rest => ((if Ascii.eqb a c then 1 else 0) + count_char c rest)%nat
  end.

(** [s.replace(c, '')] for a one-character [c]. *)
Fixpoint remove_char (c : ascii) (s : string) : string :=
  match s with
  | EmptyString => EmptyString
  | String a rest => if Ascii.eqb a c then remove_char c rest else String a (remove_char c rest)
  end.

(** [s.rfind(c)]: index of the last occurrence, or -1. *)
Fixpoint rfind_from (c : ascii) (s : string) (i last : Z) : Z :=
  match s with
  | EmptyString => last
  | String a rest => rfind_from c rest (i + 1) (if Ascii.eqb a c then i else last)
  end.
Definition rfind (c : ascii) (s : string) : Z := rfind_from c s 0 (-1).

Definition slice (s : string) (lo hi : Z) : string :=
  substring (Z.to_nat lo) (Z.to_nat (hi - lo)) s.

Fixpoint all_char (c : ascii) (s : string) : bool :=
  match s with
  | EmptyString => true
  | String a rest => Ascii.eqb a c && all_char c rest
  end.

(** [os.path.splitext(p)[1]] as [posixpath] computes it: the text from
    the last dot of the last path component, unless that component has
    nothing but dots in front of it. *)
Definition splitext_ext (p : string) : string :=
  let sepIndex := rfind "/" p in
  let dotIndex := rfind "." p in
  if (sepIndex <? dotIndex) && negb (all_char "." (slice p (sepIndex + 1) dotIndex))
  then slice p dotIndex (Z.of_nat (String.length p))
  else EmptyString.

(** ** What the runtime and the libraries supply

    None of this is code of the server: the store behind [conn], the
    [json] decoder, [urllib], the [Image] class of the tool framework and
    Python's [repr] for text.  Each one either returns or raises. *)

Class Runtime : Type := {
  image : Type;
  (** The cursor of [conn.execute(sql, params)]; every row is a tuple of
      column values. *)
  conn_cursor : string -> list value -> cursor;
  (** [json.loads] on a [str] and on a [bytes] argument. *)
  loads_str : string -> outcome value;
  loads_bytes : string -> outcome value;
  (** [urllib.parse.urlparse(url).path] for a [str] url. *)
  urlparse_path : string -> outcome string;
  (** [urllib.request.urlopen(url).read()]. *)
  urlopen_read : string -> outcome string;
  (** [Image(data=..., format=...)]. *)
  Image : string -> string -> outcome image;
  (** [repr] of a [str] and of a [bytes] object. *)
  str_repr : string -> string;
  bytes_repr : string -> string
}.

(** [conn.execute(sql, params)] drawn to its end: the store answers
    with all the rows of the query, or fails at the call or on the way. *)
Definition conn_execute {Runtime : Runtime} (sql : string) (ps : list value)
  : outcome (list (list value)) :=
  drain (conn_cursor sql ps).

Section Server.
Context {rt : Runtime}.

(** ** Operations on Python values *)

(** Truth value of an object, as [if x:] tests it. *)
Definition truthy (v : value) : bool :=
  match v with
  | PyNone => false
  | PyBool b => b
  | PyInt z => negb (z =? 0)
  | PyFloat r => negb (String.eqb r "0.0" || String.eqb r "-0.0")
  | PyStr s => negb (String.eqb s "")
  | PyBytes b => negb (String.eqb b "")
  | PyList l => match l with [] => false | _ => true end
  | PyDict kvs => match kvs with [] => false | _ => true end
  end.

Fixpoint py_repr (v : value) : string :=
  match v with
  | PyNone => "None"
  | PyBool true => "True"
  | PyBool false => "False"
  | PyInt z => string_of_Z z
  | PyFloat r => r
  | PyStr s => str_repr s
  | PyBytes b => bytes_repr b
  | PyList l => "[" ++ join ", " (map py_repr l) ++ "]"
  | PyDict kvs =>
      "{" ++ join ", " (map (fun kv => let '(k, x) := kv in str_repr k ++ ": " ++ py_repr x) kvs) ++ "}"
  end.

(** [str(v)], which is what an f-string field [{v}] inserts. *)
Definition py_str (v : value) : string :=
  match v with
  | PyStr s => s
  | _ => py_repr v
  end.

Fixpoint dict_get (kvs : list (string * value)) (k : string) : option value :=
  match kvs with
  | [] => None
  | (k', x) :: rest => if String.eqb k' k then Some x else dict_get rest k
  end.

(** [d[k] = x] on a dict: an existing key keeps its place. *)
Fixpoint dict_set (kvs : list (string * value)) (k : string) (x : value) : list (string * value) :=
  match kvs with
  | [] => [(k, x)]
  | (k', x') :: rest => if String.eqb k' k then (k', x) :: rest else (k', x') :: dict_set rest k x
  end.

(** [v[k]] for a string key [k]. *)
Definition getitem_key (v : value) (k : string) : outcome value :=
  match v with
  | PyDict kvs => match dict_get kvs k with
                  | Some x => Returns x
                  | None => Raises (KeyError k)
                  end
  | _ => Raises TypeError
  end.

(** [v[k] = x] for a string key [k]; the result is [v] after the store. *)
Definition setitem_key (v : value) (k : string) (x : value) : outcome value :=
  match v with
  | PyDict kvs => Returns (PyDict (dict_set kvs k x))
  | _ => Raises TypeError
  end.

(** [l[i]] on a sequence, negative indices counting from the end. *)
Definition list_index {A} (l : list A) (i : Z) : outcome A :=
  let n := Z.of_nat (List.length l) in
  let j := if i <? 0 then i + n else i in
  if (0 <=? j) && (j <? n)
  then match nth_error l (Z.to_nat j) with
       | Some x => Returns x
       | None => Raises IndexError
       end
  else Raises IndexError.

(** [v[i]] for an integer [i].  A decoded dict has string keys only, so
    an integer key is never found.  Indexing a [str] yields a one-character
    [str]; the model indexes bytes, which agrees on ASCII text. *)
Definition getitem_int (v : value) (i : Z) : outcome value :=
  match v with
  | PyList l => list_index l i
  | PyDict _ => Raises (KeyError (string_of_Z i))
  | PyStr s =>
      let? a := list_index (list_ascii_of_string s) i in
      Returns (PyStr (String a EmptyString))
  | PyBytes b =>
      let? a := list_index (list_ascii_of_string b) i in
      Returns (PyInt (Z.of_nat (nat_of_ascii a)))
  | _ => Raises TypeError
  end.

(** [v.values()] and [v.items()]. *)
Definition dict_values (v : value) : outcome (list value) :=
  match v with
  | PyDict kvs => Returns (map snd kvs)
  | _ => Raises AttributeError
  end.

Definition dict_items (v : value) : outcome (list (string * value)) :=
  match v with
  | PyDict kvs => Returns kvs
  | _ => Raises AttributeError
  end.

(** [len(v)]; for text the model counts bytes. *)
Definition py_len (v : value) : outcome Z :=
  match v with
  | PyDict kvs => Returns (Z.of_nat (List.length kvs))
  | PyList l => Returns (Z.of_nat (List.length l))
  | PyStr s => Returns (Z.of_nat (String.length s))
  | PyBytes b => Returns (Z.of_nat (String.length b))
  | _ => Raises TypeError
  end.

(** The objects a [for] loop draws from [v]: the elements of a list, the
    keys of a dict, the characters of a string, the bytes of a [bytes]. *)
Definition py_iter (v : value) : outcome (list value) :=
  match v with
  | PyList l => Returns l
  | PyDict kvs => Returns (map (fun kv => PyStr (fst kv)) kvs)
  | PyStr s => Returns (map (fun a => PyStr (String a EmptyString)) (list_ascii_of_string s))
  | PyBytes b => Returns (map (fun a => PyInt (Z.of_nat (nat_of_ascii a))) (list_ascii_of_string b))
  | _ => Raises TypeError
  end.

(** [json.loads(v)]: anything but [str] and [bytes] is a [TypeError]. *)
Definition json_loads (v : value) : outcome value :=
  match v with
  | PyStr s => loads_str s
  | PyBytes b => loads_bytes b
  | _ => Raises TypeError
  end.

(** ** Rows of the store *)

Definition row := list value.

(** [r[i]] on a row tuple. *)
Definition row_get (r : row) (i : Z) : outcome value := list_index r i.

(** [cursor.fetchone()] on a fresh cursor: the first row, [None] when
    there is none, or the exception that breaks the cursor before its
    first row.  Later rows are not drawn. *)
Definition fetchone (c : cursor) : outcome (option row) :=
  match c with
  | Exhausted => Returns None
  | Broken e => Raises e
  | Yield r _ => Returns (Some r)
  end.

(** [if result:] on what [fetchone] returned: a non-empty tuple. *)
Definition found (result : option row) : option row :=
  match result with
  | Some (c :: cols) => Some (c :: cols)
  | _ => None
  end.

(** [for r in result: ...] and a generator over [result]: the body runs
    on each row as it is drawn, and the exception that breaks the cursor
    is raised after the rows before it have been dealt with. *)
Fixpoint for_each {B} (f : row -> M B) (c : cursor) : M (list B) :=
  match c with
  | Exhausted => ret []
  | Broken e => raise e
  | Yield r next => b <- f r ;; bs <- for_each f next ;; ret (b :: bs)
  end.

(** The same loop over rows that are all at hand. *)
Fixpoint mapM {A B} (f : A -> M B) (l : list A) : M (list B) :=
  match l with
  | [] => ret []
  | a :: rest => b <- f a ;; bs <- mapM f rest ;; ret (b :: bs)
  end.

Definition nl : string := String (ascii_of_nat 10) EmptyString.

(** ** Lookup operations *)

Definition list_categories : M string :=
  let result := conn_cursor "SELECT id,category,subcategory FROM categories" [] in
  lines <- for_each (fun r =>
             c0 <- lift (row_get r 0) ;; c1 <- lift (row_get r 1) ;; c2 <- lift (row_get r 2) ;;
             ret ("|" ++ py_str c0 ++ "|" ++ py_str c1 ++ "|" ++ py_str c2 ++ "|")) result ;;
  ret ("|Category ID|Category Name|Subcategory Name|" ++ nl ++ "|--|--|--|" ++ nl ++ join nl lines).

Definition list_manufacturers : M string :=
  let result := conn_cursor "SELECT id,name FROM manufacturers" [] in
  lines <- for_each (fun r =>
             c0 <- lift (row_get r 0) ;; c1 <- lift (row_get r 1) ;;
             ret ("|" ++ py_str c0 ++ "|" ++ py_str c1 ++ "|")) result ;;
  ret ("|Manufacturer ID|Manufacturer Name|" ++ nl ++ "|--|--|" ++ nl ++ join nl lines).

Definition get_category (category_id : Z) : M value :=
  result <- lift (fetchone (conn_cursor "SELECT category,subcategory FROM categories WHERE id=?"
                                        [PyInt category_id])) ;;
  match found result with
  | Some result =>
      c0 <- lift (row_get result 0) ;; c1 <- lift (row_get result 1) ;;
      ret (PyStr ("Category: " ++ py_str c0 ++ ", Subcategory: " ++ py_str c1))
  | None => ret PyNone
  end.

Definition get_manufacturer (manufacturer_id : Z) : M value :=
  result <- lift (fetchone (conn_cursor "SELECT name FROM manufacturers WHERE id=?"
                                        [PyInt manufacturer_id])) ;;
  match found result with
  | Some result => lift (row_get result 0)
  | None => ret PyNone
  end.

Definition search_manufacturer (name : string) : M value :=
  let result := conn_cursor "SELECT id,name FROM manufacturers WHERE name LIKE ?"
                            [PyStr ("%" ++ name ++ "%")] in
  lines <- for_each (fun r =>
             c0 <- lift (row_get r 0) ;; c1 <- lift (row_get r 1) ;;
             ret ("|" ++ py_str c0 ++ "|" ++ py_str c1 ++ "|")) result ;;
  match lines with
  | _ :: _ => ret (PyStr ("|Manufacturer ID|Manufacturer Name|" ++ nl ++ join nl lines))
  | [] => ret PyNone
  end.

Definition get_datasheet_url (part_id : Z) : M value :=
  result <- lift (fetchone (conn_cursor "SELECT datasheet FROM components WHERE lcsc=?"
                                        [PyInt part_id])) ;;
  match found result with
  | Some result => lift (row_get result 0)
  | None => ret PyNone
  end.

(** ** Image selector *)

(** [json.loads(result[0])['images'][0]]. *)
Definition image_manifest (c0 : value) : outcome value :=
  let? extra := json_loads c0 in
  let? imgs := getitem_key extra "images" in
  getitem_int imgs 0.

(** [list(images.values())[int(len(images) / 2)]].  The quotient is a
    float division followed by truncation, which is exact for every
    length below 2^53. *)
Definition select_url (images : value) : outcome value :=
  let? vals := dict_values images in
  let? n := py_len images in
  list_index vals (Z.quot n 2).

(** [os.path.splitext(urllib.parse.urlparse(url).path)[1].replace('.', '')].
    An url that is not a [str] never gets through: [urlparse] tries to
    decode a non-empty one, and hands back a [bytes] path for an empty
    one, on which [replace] with [str] arguments fails. *)
Definition url_extension (url : value) : outcome string :=
  match url with
  | PyStr s =>
      let? path := urlparse_path s in
      Returns (remove_char "." (splitext_ext path))
  | PyBytes _ => Raises TypeError
  | _ => if truthy url then Raises AttributeError else Raises TypeError
  end.

(** [if ext == 'jpg': ext = 'jpeg']. *)
Definition normalize_ext (ext : string) : string :=
  if String.eqb ext "jpg" then "jpeg" else ext.

(** [urllib.request.urlopen(url).read()]; reached with a [str] only. *)
Definition fetch (url : value) : outcome string :=
  match url with
  | PyStr s => urlopen_read s
  | _ => Raises AttributeError
  end.

(** The body of the [try] statement; nothing in it prints. *)
Definition get_part_image_try (part_id : Z) : outcome (option image) :=
  let? result := fetchone (conn_cursor "SELECT extra FROM components WHERE lcsc=?" [PyInt part_id]) in
  match found result with
  | Some result =>
      let? c0 := row_get result 0 in
      let? images := image_manifest c0 in
      let? url := select_url images in
      let? ext := url_extension url in
      let ext := normalize_ext ext in
      let? data := fetch url in
      let? img := Image data ext in
      Returns (Some img)
  | None => Returns None
  end.

Definition get_part_image (part_id : Z) : M (option image) :=
  try_except (lift (get_part_image_try part_id))
             (fun e => print_stderr e ;;; ret None).

(** ** The filter record *)

Record SearchQuery : Type := {
  category_id : Z;
  manufacturer_id : option Z;
  manufacturer_pn : option string;
  description : option string;
  package : option string;
  is_basic_parts : option bool;
  is_preferred_parts : option bool
}.

Definition select_from : string :=
  "SELECT lcsc,category_id,manufacturer_id,mfr,basic,preferred,description,package,stock,price,extra FROM components WHERE ".

(** [where_clauses] and [params] are two lists that grow side by side;
    [push] is the pair of [append] calls of one [if] branch. *)
Definition builder : Type := (list string * list value)%type.

Definition push_clause (b : builder) (clause : string) : builder :=
  ((fst b ++ [clause])%list, snd b).
Definition push_bound (b : builder) (clause : string) (p : value) : builder :=
  ((fst b ++ [clause])%list, (snd b ++ [p])%list).

Definition literal_bit (b : bool) : string := if b then "1" else "0".

Definition compile_filter (q : SearchQuery) : builder :=
  let b := push_bound ([], []) "category_id=?" (PyInt (category_id q)) in
  let b := match manufacturer_id q with
           | Some m => push_bound b "manufacturer_id=?" (PyInt m)
           | None => b
           end in
  let b := match manufacturer_pn q with
           | Some s => if String.eqb s "" then b else push_bound b "mfr LIKE ?" (PyStr s)
           | None => b
           end in
  let b := match description q with
           | Some s => if String.eqb s "" then b else push_bound b "description LIKE ?" (PyStr s)
           | None => b
           end in
  let b := match package q with
           | Some s => if String.eqb s "" then b else push_bound b "package=?" (PyStr s)
           | None => b
           end in
  let b := match is_basic_parts q with
           | Some v => push_clause b ("basic=" ++ literal_bit v)
           | None => b
           end in
  let b := match is_preferred_parts q with
           | Some v => push_clause b ("preferred=" ++ literal_bit v)
           | None => b
           end in
  b.

Definition where_clauses (q : SearchQuery) : list string := fst (compile_filter q).
Definition params (q : SearchQuery) : list value := snd (compile_filter q).
Definition query_text (q : SearchQuery) : string :=
  select_from ++ join " AND " (where_clauses q).

(** ** Row presenter *)

(** One pass of the loop body over a tier [p]: the two [None] bounds are
    overwritten in place, then the f-string reads the three keys.  The
    result is the text appended to [price] and [p] as the loop leaves it. *)
Definition render_tier (p : value) : outcome (string * value) :=
  let? qFrom := getitem_key p "qFrom" in
  let? p := match qFrom with
            | PyNone => setitem_key p "qFrom" (PyStr "")
            | _ => Returns p
            end in
  let? qTo := getitem_key p "qTo" in
  let? p := match qTo with
            | PyNone => setitem_key p "qTo" (PyStr "")
            | _ => Returns p
            end in
  let? a := getitem_key p "qFrom" in
  let? b := getitem_key p "qTo" in
  let? c := getitem_key p "price" in
  Returns (py_str a ++ "-" ++ py_str b ++ " " ++ py_str c ++ "USD/pc", p).

(** [for p in ps: ...] with the list [price] that the body appends to;
    also returns the elements as the loop leaves them. *)
Fixpoint price_loop (ps : list value) (price : list string) : outcome (list string * list value) :=
  match ps with
  | [] => Returns (price, [])
  | p :: rest =>
      let? (t, p') := render_tier p in
      let? (price', rest') := price_loop rest (price ++ [t])%list in
      Returns (price', p' :: rest')
  end.

(** The loop over [prices] followed by the join: the text, and [prices]
    after the in-place updates.  Only a list holds objects that the body
    can update; the keys of a dict and the characters of a string are
    fresh [str] objects on which the body raises at once. *)
Definition render_prices (prices : value) : outcome (string * value) :=
  let? ps := py_iter prices in
  let? (price, ps') := price_loop ps [] in
  Returns (join ", " price,
           match prices with PyList _ => PyList ps' | _ => prices end).

(** The body of the first [try] statement of the row loop. *)
Definition price_try (r : row) : outcome string :=
  let? c9 := row_get r 9 in
  let? prices := json_loads c9 in
  let? res := render_prices prices in
  Returns (fst res).

Definition price_cell (r : row) : M string :=
  try_except (lift (price_try r))
             (fun e => print_stderr e ;;; ret "No info").

(** [for k, v in attributes.items(): chars.append(f"{k}:{v}")] and the join. *)
Definition render_attributes (extra : value) : outcome string :=
  let? attributes := getitem_key extra "attributes" in
  let? items := dict_items attributes in
  Returns (join ", " (map (fun kv => fst kv ++ ":" ++ py_str (snd kv)) items)).

(** The body of the second [try] statement of the row loop. *)
Definition attributes_try (r : row) : outcome string :=
  let? c10 := row_get r 10 in
  let? extra := json_loads c10 in
  render_attributes extra.

Definition attributes_cell (r : row) : M string :=
  try_except (lift (attributes_try r))
             (fun e => print_stderr e ;;; ret "No info").

(** One pass of [for r in result]: the line appended to [lines]. *)
Definition row_line (r : row) : M string :=
  price_data <- price_cell r ;;
  char_data <- attributes_cell r ;;
  c0 <- lift (row_get r 0) ;; c1 <- lift (row_get r 1) ;; c2 <- lift (row_get r 2) ;;
  c3 <- lift (row_get r 3) ;; c4 <- lift (row_get r 4) ;; c5 <- lift (row_get r 5) ;;
  c6 <- lift (row_get r 6) ;; c7 <- lift (row_get r 7) ;; c8 <- lift (row_get r 8) ;;
  ret ("|" ++ py_str c0 ++ "|" ++ py_str c1 ++ "|" ++ py_str c2 ++ "|" ++ py_str c3
       ++ "|" ++ py_str c4 ++ "|" ++ py_str c5 ++ "|" ++ py_str c6 ++ "|" ++ py_str c7
       ++ "|" ++ py_str c8 ++ "|" ++ price_data ++ "|" ++ char_data ++ "|").

Definition table_header : string :=
  "|Part Number|Category ID|Manufacturer ID|Manufacturer PN|Basic Parts|Preferred Parts|Description|Package|Stock|Price|Attributes|"
  ++ nl ++ "|--|--|--|--|--|--|--|--|--|--|--|" ++ nl.

Definition search_parts (search_query : SearchQuery) : M string :=
  let result := conn_cursor (query_text search_query) (params search_query) in
  lines <- for_each row_line result ;;
  ret (table_header ++ join nl lines).

End Server.

(** ** Vocabulary of the filter compiler's specification *)

Definition is_some {A} (o : option A) : bool :=
  match o with Some _ => true | None => false end.

(** A text field holds something the [if field:] test lets through. *)
Definition text_given (f : option string) : bool :=
  match f with
  | Some s => negb (String.eqb s "")
  | None => false
  end.

Definition bit (b : bool) : nat := if b then 1%nat else 0%nat.

(** Optional fields that are not the unset sentinel [None]. *)
Definition fields_present (q : SearchQuery) : nat :=
  (bit (is_some (manufacturer_id q)) + bit (is_some (manufacturer_pn q))
   + bit (is_some (description q)) + bit (is_some (package q))
   + bit (is_some (is_basic_parts q)) + bit (is_some (is_preferred_parts q)))%nat.

(** Optional fields that pass the test guarding their predicate: not
    [None], and for the three text fields not the empty string either. *)
Definition fields_given (q : SearchQuery) : nat :=
  (bit (is_some (manufacturer_id q)) + bit (text_given (manufacturer_pn q))
   + bit (text_given (description q)) + bit (text_given (package q))
   + bit (is_some (is_basic_parts q)) + bit (is_some (is_preferred_parts q)))%nat.

Definition when {A} (b : bool) (x : A) : list A := if b then [x] else [].

Definition flag_clauses (q : SearchQuery) : list string :=
  (match is_basic_parts q with Some b => [("basic=" ++ literal_bit b)%string] | None => [] end
   ++ match is_preferred_parts q with Some b => [("preferred=" ++ literal_bit b)%string] | None => [] end)%list.

(** The predicates, one per given field, category first. *)
Definition expected_clauses (q : SearchQuery) : list string :=
  (["category_id=?"]
   ++ when (is_some (manufacturer_id q)) "manufacturer_id=?"
   ++ when (text_given (manufacturer_pn q)) "mfr LIKE ?"
   ++ when (text_given (description q)) "description LIKE ?"
   ++ when (text_given (package q)) "package=?"
   ++ flag_clauses q)%list.

(** Every form a predicate can take. *)
Definition predicate_forms : list string :=
  ["category_id=?"; "manufacturer_id=?"; "mfr LIKE ?"; "description LIKE ?"; "package=?";
   "basic=1"; "basic=0"; "preferred=1"; "preferred=0"].

(** The placeholder predicates with the value bound to each, in order. *)
Definition bind_int (clause : string) (f : option Z) : list (string * value) :=
  match f with Some z => [(clause, PyInt z)] | None => [] end.
Definition bind_text (clause : string) (f : option string) : list (string * value) :=
  match f with Some s => when (text_given f) (clause, PyStr s) | None => [] end.

Definition expected_bindings (q : SearchQuery) : list (string * value) :=
  ([("category_id=?", PyInt (category_id q))]
   ++ bind_int "manufacturer_id=?" (manufacturer_id q)
   ++ bind_text "mfr LIKE ?" (manufacturer_pn q)
   ++ bind_text "description LIKE ?" (description q)
   ++ bind_text "package=?" (package q))%list.

Definition has_placeholder (clause : string) : bool := contains "?" clause.

(** What of a filter record the query text may depend on: which fields
    are given, and the two tri-state flags; no number, no text. *)
Definition shape : Type := (bool * bool * bool * bool * option bool * option bool)%type.

Definition filter_shape (q : SearchQuery) : shape :=
  (is_some (manufacturer_id q), text_given (manufacturer_pn q), text_given (description q),
   text_given (package q), is_basic_parts q, is_preferred_parts q).

(** A record of a given shape that carries no caller data. *)
Definition of_shape (sh : shape) : SearchQuery :=
  let '(m, pn, ds, pk, basic, preferred) := sh in
  {| category_id := 0;
     manufacturer_id := if m then Some 0 else None;
     manufacturer_pn := if pn then Some "x" else None;
     description := if ds then Some "x" else None;
     package := if pk then Some "x" else None;
     is_basic_parts := basic;
     is_preferred_parts := preferred |}.

Definition without_flags (q : SearchQuery) : SearchQuery :=
  {| category_id := category_id q; manufacturer_id := manufacturer_id q;
     manufacturer_pn := manufacturer_pn q; description := description q;
     package := package q; is_basic_parts := None; is_preferred_parts := None |}.

(** The flag predicates with their digits written out: [1] for [True],
    [0] for [False], nothing for an unset flag. *)
Definition flag_predicates (q : SearchQuery) : list string :=
  (match is_basic_parts q with
   | Some true => ["basic=1"]
   | Some false => ["basic=0"]
   | None => []
   end
   ++ match is_preferred_parts q with
      | Some true => ["preferred=1"]
      | Some false => ["preferred=0"]
      | None => []
      end)%list.

(** Every scalar the caller supplied apart from the two flags, in field
    order: the category, and each of the other four fields that is not
    [None]. *)
Definition supplied_int (f : option Z) : list value :=
  match f with Some z => [PyInt z] | None => [] end.
Definition supplied_text (f : option string) : list value :=
  match f with Some s => [PyStr s] | None => [] end.

Definition supplied_values (q : SearchQuery) : list value :=
  ([PyInt (category_id q)] ++ supplied_int (manufacturer_id q) ++ supplied_text (manufacturer_pn q)
   ++ supplied_text (description q) ++ supplied_text (package q))%list.

Definition is_blank (v : value) : bool :=
  match v with PyStr s => String.eqb s "" | _ => false end.

(** Three text fields supplied, all of them empty. *)
Definition blank_texts_query : SearchQuery :=
  {| category_id := 1; manufacturer_id := None; manufacturer_pn := Some "";
     description := Some ""; package := Some "";
     is_basic_parts := None; is_preferred_parts := None |}.

(** An empty text field is present, yet contributes no predicate. *)
Definition blank_pn_query : SearchQuery :=
  {| category_id := 1; manufacturer_id := None; manufacturer_pn := Some "";
     description := None; package := None;
     is_basic_parts := None; is_preferred_parts := None |}.

(** ** Vocabulary of the row presenter's specification *)

Definition has_key (kvs : list (string * value)) (k : string) : bool := is_some (dict_get kvs k).

(** A tier the loop body can read: a mapping with the three keys. *)
Definition tier_readable (p : value) : bool :=
  match p with
  | PyDict kvs => has_key kvs "qFrom" && has_key kvs "qTo" && has_key kvs "price"
  | _ => false
  end.


(** A tier of the data model: [qFrom] and [qTo] an integer or null,
    [price] a number. *)
Definition is_bound (v : value) : bool :=
  match v with PyNone | PyInt _ => true | _ => false end.
Definition is_number (v : value) : bool :=
  match v with PyInt _ | PyFloat _ => true | _ => false end.

Definition well_formed_tier (p : value) : bool :=
  match p with
  | PyDict kvs =>
      match dict_get kvs "qFrom", dict_get kvs "qTo", dict_get kvs "price" with
      | Some a, Some b, Some c => is_bound a && is_bound b && is_number c
      | _, _, _ => false
      end
  | _ => false
  end.

(** Text of a number, and of a bound with null as the empty string. *)
Definition number_text (v : value) : string :=
  match v with
  | PyInt z => string_of_Z z
  | PyFloat r => r
  | _ => ""
  end.
Definition bound_text (v : value) : string :=
  match v with
  | PyNone => ""
  | _ => number_text v
  end.

(** ["<qFrom>-<qTo> <price>USD/pc"] for a tier of the data model. *)
Definition tier_text (p : value) : string :=
  match p with
  | PyDict kvs =>
      match dict_get kvs "qFrom", dict_get kvs "qTo", dict_get kvs "price" with
      | Some a, Some b, Some c => bound_text a ++ "-" ++ bound_text b ++ " " ++ number_text c ++ "USD/pc"
      | _, _, _ => ""
      end
  | _ => ""
  end.

(** The in-place effect of the loop body on a tier: a [None] bound
    becomes the empty string. *)
Definition blank_none (kvs : list (string * value)) (k : string) : list (string * value) :=
  match dict_get kvs k with
  | Some PyNone => dict_set kvs k (PyStr "")
  | _ => kvs
  end.
Definition tier_after (p : value) : value :=
  match p with
  | PyDict kvs => PyDict (blank_none (blank_none kvs "qFrom") "qTo")
  | _ => p
  end.

(** An attribute value of the data model: a string or a number. *)
Definition is_attribute_value (v : value) : bool :=
  match v with PyStr _ | PyInt _ | PyFloat _ => true | _ => false end.
Definition attribute_value_text (v : value) : string :=
  match v with
  | PyStr s => s
  | _ => number_text v
  end.
(** ["<key>:<value>"]. *)
Definition attribute_text (kv : string * value) : string :=
  fst kv ++ ":" ++ attribute_value_text (snd kv).

(** The file extension of a path, said without the code: the path reads
    [dir ++ name ++ "." ++ e], where [dir] is empty or ends with a
    slash, the file name [name] holds no slash and is not made of dots
    alone (so it is not empty), and [e] holds neither a dot nor a
    slash.  A path that cannot be read this way has no extension. *)
Definition is_directory (dir : string) : Prop :=
  dir = EmptyString \/ exists d, dir = d ++ "/".

Definition has_extension (path e : string) : Prop :=
  exists dir name,
    path = dir ++ name ++ "." ++ e
    /\ is_directory dir
    /\ count_char "/" name = 0%nat
    /\ all_char "." name = false
    /\ count_char "." e = 0%nat
    /\ count_char "/" e = 0%nat.

(** What the f-string shows for a bound and for a whole tier, whatever
    the values are. *)
Definition blank (v : value) : value :=
  match v with PyNone => PyStr "" | _ => v end.

Definition tier_line {rt : Runtime} (p : value) : string :=
  match p with
  | PyDict kvs =>
      match dict_get kvs "qFrom", dict_get kvs "qTo", dict_get kvs "price" with
      | Some a, Some b, Some c =>
          py_str (blank a) ++ "-" ++ py_str (blank b) ++ " " ++ py_str c ++ "USD/pc"
      | _, _, _ => ""
      end
  | _ => ""
  end.

(** The two JSON cells of a row and what its two [try] statements
    print, as functions of the row alone. *)
Definition price_text {rt : Runtime} (r : row) : string :=
  match price_try r with
  | Returns s => s
  | Raises _ => "No info"
  end.

Definition attributes_text {rt : Runtime} (r : row) : string :=
  match attributes_try r with
  | Returns s => s
  | Raises _ => "No info"
  end.

Definition diagnostic {A} (o : outcome A) : list exn :=
  match o with
  | Returns _ => []
  | Raises e => [e]
  end.

Definition row_diagnostics {rt : Runtime} (r : row) : list exn :=
  (diagnostic (price_try r) ++ diagnostic (attributes_try r))%list.

(** The line of a row that has its nine plain columns. *)
Definition row_text {rt : Runtime} (r : row) : string :=
  match r with
  | c0 :: c1 :: c2 :: c3 :: c4 :: c5 :: c6 :: c7 :: c8 :: _ =>
      "|" ++ py_str c0 ++ "|" ++ py_str c1 ++ "|" ++ py_str c2 ++ "|" ++ py_str c3
      ++ "|" ++ py_str c4 ++ "|" ++ py_str c5 ++ "|" ++ py_str c6 ++ "|" ++ py_str c7
      ++ "|" ++ py_str c8 ++ "|" ++ price_text r ++ "|" ++ attributes_text r ++ "|"
  | _ => ""
  end.

Definition wide_enough (r : row) : Prop := (9 <= List.length r)%nat.

(** The two queries keyed by part number. *)
Definition extra_query : string := "SELECT extra FROM components WHERE lcsc=?".
Definition datasheet_query : string := "SELECT datasheet FROM components WHERE lcsc=?".

(** ** A small world to run the server in

    A store that answers every query with the same rows, a decoder that
    knows three documents and rejects every other text, one image host.
    The theorems below hold for every [Runtime]; this one serves to
    evaluate the operations on concrete inputs. *)

Module Sample.

Definition dq : string := String (ascii_of_nat 34) EmptyString.
Definition quoted (s : string) : string := dq ++ s ++ dq.

Definition price_doc : string :=
  "[{" ++ quoted "qFrom" ++ ": null, " ++ quoted "qTo" ++ ": 10, " ++ quoted "price" ++ ": 1.5}]".
Definition price_tiers : list value :=
  [PyDict [("qFrom", PyNone); ("qTo", PyInt 10); ("price", PyFloat "1.5")]].

Definition image_urls : list (string * value) :=
  [("96x96", PyStr "https://img.example/96/C25804.jpg");
   ("224x224", PyStr "https://img.example/224/C25804.jpg");
   ("900x900", PyStr "https://img.example/900/C25804.jpg")].
Definition attributes : list (string * value) :=
  [("Resistance", PyStr "10k"); ("Tolerance", PyStr "1%")].

Definition extra_doc : string :=
  "{" ++ quoted "attributes" ++ ": {" ++ quoted "Resistance" ++ ": " ++ quoted "10k" ++ ", "
  ++ quoted "Tolerance" ++ ": " ++ quoted "1%" ++ "}, " ++ quoted "images" ++ ": [{"
  ++ quoted "96x96" ++ ": " ++ quoted "https://img.example/96/C25804.jpg" ++ ", "
  ++ quoted "224x224" ++ ": " ++ quoted "https://img.example/224/C25804.jpg" ++ ", "
  ++ quoted "900x900" ++ ": " ++ quoted "https://img.example/900/C25804.jpg" ++ "}]}".
Definition extra_value : value :=
  PyDict [("attributes", PyDict attributes); ("images", PyList [PyDict image_urls])].

Definition no_images_doc : string := "{" ++ quoted "images" ++ ": [{}]}".
Definition no_images_value : value := PyDict [("images", PyList [PyDict []])].

Definition decode (s : string) : outcome value :=
  if String.eqb s price_doc then Returns (PyList price_tiers)
  else if String.eqb s extra_doc then Returns extra_value
  else if String.eqb s no_images_doc then Returns no_images_value
  else Raises JSONDecodeError.

Definition host : string := "https://img.example".

Definition path_of (url : string) : outcome string :=
  if prefix host url
  then Returns (substring (String.length host) (String.length url - String.length host) url)
  else Raises ValueError.

Definition download (url : string) : outcome string :=
  if prefix host url then Returns ("bytes of " ++ url) else Raises (URLError "unknown host").

Definition runtime (store : string -> list value -> cursor) : Runtime :=
  {| image := (string * string)%type;
     conn_cursor := store;
     loads_str := decode;
     loads_bytes := decode;
     urlparse_path := path_of;
     urlopen_read := download;
     Image := fun data format => Returns (data, format);
     str_repr := fun s => "'" ++ s ++ "'";
     bytes_repr := fun b => "b'" ++ b ++ "'" |}.

Definition answer (rows : list row) : string -> list value -> cursor :=
  fun _ _ => rows_then rows Exhausted.
Definition no_rows : string -> list value -> cursor := answer [].
Definition store_down : string -> list value -> cursor :=
  fun _ _ => Broken (OperationalError "disk I/O error").

Definition part (price extra : value) : row :=
  [PyInt 25804; PyInt 5; PyInt 12; PyStr "0603WAF1002T5E"; PyInt 1; PyInt 0;
   PyStr "10k 1% 0603 resistor"; PyStr "0603"; PyInt 1000; price; extra].

Definition good_part : row := part (PyStr price_doc) (PyStr extra_doc).
Definition oops_part : row := part (PyStr "oops") (PyStr extra_doc).

Definition resistors : SearchQuery :=
  {| category_id := 5; manufacturer_id := None; manufacturer_pn := None;
     description := Some "%10k%"; package := Some "0603";
     is_basic_parts := Some true; is_preferred_parts := None |}.

End Sample.

(** ** Vocabulary of the lookup tables and of the failure cases *)

(** The line of a [categories] row and of a [manufacturers] row. *)
Definition category_line {rt : Runtime} (r : row) : string :=
  match r with
  | c0 :: c1 :: c2 :: _ => "|" ++ py_str c0 ++ "|" ++ py_str c1 ++ "|" ++ py_str c2 ++ "|"
  | _ => ""
  end.

Definition manufacturer_line {rt : Runtime} (r : row) : string :=
  match r with
  | c0 :: c1 :: _ => "|" ++ py_str c0 ++ "|" ++ py_str c1 ++ "|"
  | _ => ""
  end.

Definition categories_query : string := "SELECT id,category,subcategory FROM categories".
Definition manufacturers_query : string := "SELECT id,name FROM manufacturers".
Definition category_query : string := "SELECT category,subcategory FROM categories WHERE id=?".
Definition manufacturer_query : string := "SELECT name FROM manufacturers WHERE id=?".
Definition manufacturer_search_query : string := "SELECT id,name FROM manufacturers WHERE name LIKE ?".

Definition at_least (n : nat) (r : row) : Prop := (n <= List.length r)%nat.

(** The exception of the loop body on a tier it cannot read: the first
    key it misses, or a subscript on something that is no mapping. *)
Definition tier_error (p : value) : exn :=
  match p with
  | PyDict kvs =>
      if negb (has_key kvs "qFrom") then KeyError "qFrom"
      else if negb (has_key kvs "qTo") then KeyError "qTo"
      else KeyError "price"
  | _ => TypeError
  end.

Definition is_dict (v : value) : bool :=
  match v with PyDict _ => true | _ => false end.
Definition is_text (v : value) : bool :=
  match v with PyStr _ => true | _ => false end.

(** Reading the shape of a filter back from the text it compiled to. *)
Definition read_flag (column sql : string) : option bool :=
  if contains (column ++ "=1") sql then Some true
  else if contains (column ++ "=0") sql then Some false
  else None.

Definition read_shape (sql : string) : shape :=
  (contains "manufacturer_id=?" sql, contains "mfr LIKE ?" sql, contains "description LIKE ?" sql,
   contains "package=?" sql, read_flag "basic" sql, read_flag "preferred" sql).

(** Vertical bars in the text of the first [n] cells of a row. *)
Definition bars (s : string) : nat := count_char "|" s.
Definition bars_in_cells {rt : Runtime} (n : nat) (r : row) : nat :=
  list_sum (map (fun c => bars (py_str c)) (firstn n r)).

(** More sample data: reference tables, a tier that lacks its price, a
    part with a bar in its description. *)
Module SampleTables.

Definition categories : list row :=
  [[PyInt 1; PyStr "Resistors"; PyStr "Chip Resistor - Surface Mount"];
   [PyInt 2; PyStr "Capacitors"; PyNone]].

Definition manufacturers : list row :=
  [[PyInt 12; PyStr "UNI-ROYAL(Uniroyal Elec)"]; [PyInt 40; PyStr "YAGEO"]].

Definition tier_without_price : value := PyDict [("qFrom", PyInt 1); ("qTo", PyNone)].

Definition barred_part : row :=
  [PyInt 7; PyInt 5; PyNone; PyStr "A|B"; PyInt 0; PyInt 0; PyStr "x"; PyStr "0603"; PyInt 3;
   PyStr Sample.price_doc; PyStr Sample.extra_doc].

(** A store whose cursor yields the sample part and then breaks. *)
Definition breaks_after (rows : list row) : string -> list value -> cursor :=
  fun _ _ => rows_then rows (Broken (OperationalError "database disk image is malformed")).

(** A part whose only image is an archive, in a world whose decoder
    knows this one document and whose image constructor takes any
    format tag. *)
Definition archive_extra : value :=
  PyDict [("images", PyList [PyDict [("full", PyStr "https://img.example/C7.tar.gz")]])].

Definition archive_runtime : Runtime :=
  {| image := (string * string)%type;
     conn_cursor := Sample.answer [[PyStr "archive"]];
     loads_str := fun _ => Returns archive_extra;
     loads_bytes := fun _ => Returns archive_extra;
     urlparse_path := Sample.path_of;
     urlopen_read := Sample.download;
     Image := fun data format => Returns (data, format);
     str_repr := fun s => "'" ++ s ++ "'";
     bytes_repr := fun b => "b'" ++ b ++ "'" |}.

End SampleTables.

(** * Theorems *)

(** ** Filter compiler *)

Ltac filter_cases q :=
  destruct q as [cid [mid|] [[|a1 pn]|] [[|a2 ds]|] [[|a3 pk]|] [[|]|] [[|]|]].

Ltac by_filter_cases q := filter_cases q; vm_compute; reflexivity.

Lemma where_clauses_expected (q : SearchQuery) : where_clauses q = expected_clauses q.
Proof. by_filter_cases q. Qed.

Lemma clauses_among_forms (q : SearchQuery) :
  forallb (fun c => existsb (String.eqb c) predicate_forms) (where_clauses q) = true.
Proof. by_filter_cases q. Qed.

Lemma placeholders_counted (q : SearchQuery) :
  forallb (fun c => Nat.eqb (count_char "?" c) (bit (has_placeholder c))) (where_clauses q) = true.
Proof. by_filter_cases q. Qed.

Lemma query_text_of_shape (q : SearchQuery) :
  query_text q = query_text (of_shape (filter_shape q)).
Proof. by_filter_cases q. Qed.

(** C1, amended.  The WHERE clause always starts with the [category_id]
    predicate and then holds exactly one predicate for every optional
    field that passes its guard: a [manufacturer_id] or a flag that is not
    [None], a text field that is neither [None] nor empty.  The predicates
    are joined with [" AND "], each is one of nine fixed comparisons, the
    text holds no [OR], and their number is one plus the number of fields
    given. *)
Theorem where_clause_shape (q : SearchQuery) :
  where_clauses q = expected_clauses q
  /\ hd_error (where_clauses q) = Some "category_id=?"
  /\ List.length (where_clauses q) = (1 + fields_given q)%nat
  /\ query_text q = select_from ++ join " AND " (where_clauses q)
  /\ Forall (fun c => In c predicate_forms) (where_clauses q)
  /\ contains " OR " (query_text q) = false
  /\ contains " or " (query_text q) = false.
Proof.
  split; [apply where_clauses_expected|].
  split; [by_filter_cases q|].
  split; [by_filter_cases q|].
  split; [reflexivity|].
  split.
  - apply Forall_forall. intros c Hc.
    pose proof (clauses_among_forms q) as Hall.
    rewrite forallb_forall in Hall. specialize (Hall c Hc).
    apply existsb_exists in Hall. destruct Hall as [f [Hf Heq]].
    apply String.eqb_eq in Heq. now subst.
  - split; by_filter_cases q.
Qed.

(** C1 as first stated fails: for a record whose [manufacturer_pn] is the
    empty string, one optional field is present (it is not [None]) but
    the WHERE clause holds the [category_id] predicate alone, so the
    number of predicates is not one plus the number of fields present. *)
Lemma blank_text_field_adds_no_predicate :
  fields_present blank_pn_query = 1%nat
  /\ where_clauses blank_pn_query = ["category_id=?"]
  /\ List.length (where_clauses blank_pn_query) <> (1 + fields_present blank_pn_query)%nat.
Proof.
  repeat split; try reflexivity. vm_compute. discriminate.
Qed.

Lemma flags_written_out (q : SearchQuery) :
  filter (fun c => negb (has_placeholder c)) (where_clauses q) = flag_predicates q.
Proof. by_filter_cases q. Qed.

Lemma bound_values_are_supplied (q : SearchQuery) :
  params q = filter (fun v => negb (is_blank v)) (supplied_values q).
Proof. by_filter_cases q. Qed.

Lemma flag_digit_in_text (q : SearchQuery) :
  (forall b, is_basic_parts q = Some b ->
     contains (if b then "basic=1" else "basic=0") (query_text q) = true
     /\ contains (if b then "basic=0" else "basic=1") (query_text q) = false)
  /\ (forall b, is_preferred_parts q = Some b ->
        contains (if b then "preferred=1" else "preferred=0") (query_text q) = true
        /\ contains (if b then "preferred=0" else "preferred=1") (query_text q) = false)
  /\ (is_basic_parts q = None -> contains "basic=" (query_text q) = false)
  /\ (is_preferred_parts q = None -> contains "preferred=" (query_text q) = false).
Proof.
  filter_cases q; cbn [is_basic_parts is_preferred_parts];
    (split; [|split; [|split]]);
    try discriminate;
    try (intros b Hb; injection Hb as <-; split; vm_compute; reflexivity);
    intros _; vm_compute; reflexivity.
Qed.

(** C2, amended.  The values of the record that pass their guard (the
    category, a [manufacturer_id] that is not [None], a text field that
    is neither [None] nor empty) reach the store as bound parameters
    only: [params] lists them in field order, one behind each ['?']
    predicate, every predicate holds at most one ['?'] and the text
    holds as many as there are parameters; the text is the same for any
    two records of the same shape, so no number and no text of the
    record is spliced into it.  An empty text field is supplied but
    neither bound nor written.  The two flags are the predicates
    without a placeholder, [basic=1] or [preferred=1] for [True],
    [basic=0] or [preferred=0] for [False], and add nothing to
    [params]. *)
Theorem values_are_bound_not_spliced (q : SearchQuery) :
  params q = map snd (expected_bindings q)
  /\ params q = filter (fun v => negb (is_blank v)) (supplied_values q)
  /\ filter has_placeholder (where_clauses q) = map fst (expected_bindings q)
  /\ filter (fun c => negb (has_placeholder c)) (where_clauses q) = flag_predicates q
  /\ Forall (fun c => count_char "?" c = bit (has_placeholder c)) (where_clauses q)
  /\ count_char "?" (query_text q) = List.length (params q)
  /\ (forall q', filter_shape q' = filter_shape q -> query_text q' = query_text q)
  /\ params (without_flags q) = params q
  /\ (forall b, is_basic_parts q = Some b ->
        contains (if b then "basic=1" else "basic=0") (query_text q) = true
        /\ contains (if b then "basic=0" else "basic=1") (query_text q) = false)
  /\ (forall b, is_preferred_parts q = Some b ->
        contains (if b then "preferred=1" else "preferred=0") (query_text q) = true
        /\ contains (if b then "preferred=0" else "preferred=1") (query_text q) = false)
  /\ (is_basic_parts q = None -> contains "basic=" (query_text q) = false)
  /\ (is_preferred_parts q = None -> contains "preferred=" (query_text q) = false).
Proof.
  split; [by_filter_cases q|].
  split; [apply bound_values_are_supplied|].
  split; [by_filter_cases q|].
  split; [apply flags_written_out|].
  split.
  { apply Forall_forall. intros c Hc.
    pose proof (placeholders_counted q) as Hall.
    rewrite forallb_forall in Hall. now apply Nat.eqb_eq, Hall. }
  split; [by_filter_cases q|].
  split.
  { intros q' Hq'. rewrite (query_text_of_shape q'), (query_text_of_shape q), Hq'. reflexivity. }
  split; [by_filter_cases q|].
  exact (flag_digit_in_text q).
Qed.

(** C2 as first stated fails: a record with three empty text fields
    supplies four values besides the flags, yet one parameter is bound
    and the text holds one placeholder. *)
Lemma blank_text_fields_are_not_bound :
  supplied_values blank_texts_query = [PyInt 1; PyStr ""; PyStr ""; PyStr ""]
  /\ params blank_texts_query = [PyInt 1]
  /\ count_char "?" (query_text blank_texts_query) = 1%nat
  /\ List.length (params blank_texts_query) <> List.length (supplied_values blank_texts_query).
Proof.
  repeat split; try (vm_compute; reflexivity). vm_compute. discriminate.
Qed.

(** Two records that differ in every value but not in shape compile to
    the same text. *)
Example same_text_for_other_values :
  query_text Sample.resistors
  = query_text {| category_id := 77; manufacturer_id := None; manufacturer_pn := None;
                  description := Some "x' OR 1=1 --"; package := Some "SOT-23";
                  is_basic_parts := Some true; is_preferred_parts := None |}.
Proof. vm_compute. reflexivity. Qed.

(** ** Cursors *)

Lemma drain_rows_then (rows : list (list value)) : drain (rows_then rows Exhausted) = Returns rows.
Proof. induction rows as [|r rest IH]; simpl; [reflexivity|]. now rewrite IH. Qed.

(** A cursor that can be drawn to its end yields its rows and is then
    exhausted. *)
Lemma drained_cursor (c : cursor) (rows : list (list value)) :
  drain c = Returns rows -> c = rows_then rows Exhausted.
Proof.
  revert rows. induction c as [|e|r next IH]; intros rows; simpl.
  - intros H. injection H as <-. reflexivity.
  - discriminate.
  - destruct (drain next) as [rest|e]; [|discriminate]. cbn [and_then].
    intros H. injection H as <-. simpl. now rewrite (IH rest eq_refl).
Qed.

Lemma for_each_rows {B} (f : list value -> M B) (rows : list (list value)) (log : stderr) :
  for_each f (rows_then rows Exhausted) log = mapM f rows log.
Proof.
  revert log. induction rows as [|r rest IH]; intros log; simpl; [reflexivity|].
  unfold bind. destruct (f r log) as [[b|e] log1]; [|reflexivity]. now rewrite IH.
Qed.

(** When the store answers a query with all its rows, looping over the
    cursor is looping over these rows, and [fetchone] gives the first. *)
Lemma for_each_drained {rt : Runtime} {B} (f : list value -> M B) (sql : string) (ps : list value)
    (rows : list (list value)) (log : stderr) :
  conn_execute sql ps = Returns rows -> for_each f (conn_cursor sql ps) log = mapM f rows log.
Proof.
  unfold conn_execute. intros H. rewrite (drained_cursor _ _ H). apply for_each_rows.
Qed.

Lemma fetchone_drained {rt : Runtime} (sql : string) (ps : list value) (rows : list (list value)) :
  conn_execute sql ps = Returns rows -> fetchone (conn_cursor sql ps) = Returns (hd_error rows).
Proof.
  unfold conn_execute. intros H. rewrite (drained_cursor _ _ H). destruct rows; reflexivity.
Qed.

(** ** Python values *)

Lemma list_index_nth {A} (l : list A) (i : nat) (x : A) :
  nth_error l i = Some x -> list_index l (Z.of_nat i) = Returns x.
Proof.
  intros H. unfold list_index.
  assert (Hlt : (i < List.length l)%nat) by (apply nth_error_Some; congruence).
  replace (Z.of_nat i <? 0) with false by (symmetry; apply Z.ltb_ge; lia).
  replace (0 <=? Z.of_nat i) with true by (symmetry; apply Z.leb_le; lia).
  replace (Z.of_nat i <? Z.of_nat (List.length l)) with true by (symmetry; apply Z.ltb_lt; lia).
  simpl. rewrite Nat2Z.id, H. reflexivity.
Qed.

Lemma dict_get_set_same kvs k x : dict_get (dict_set kvs k x) k = Some x.
Proof.
  induction kvs as [|[k' x'] rest IH]; simpl.
  - now rewrite String.eqb_refl.
  - destruct (String.eqb k' k) eqn:E; simpl; rewrite E; auto.
Qed.

Lemma dict_get_set_other kvs k x k' :
  k <> k' -> dict_get (dict_set kvs k x) k' = dict_get kvs k'.
Proof.
  intros Hne. induction kvs as [|[k0 x0] rest IH]; simpl.
  - destruct (String.eqb k k') eqn:E; auto. apply String.eqb_eq in E. contradiction.
  - destruct (String.eqb k0 k) eqn:E; simpl.
    + apply String.eqb_eq in E. subst k0.
      destruct (String.eqb k k') eqn:E'; auto. apply String.eqb_eq in E'. contradiction.
    + now rewrite IH.
Qed.

Lemma dict_get_blank_same kvs k :
  dict_get (blank_none kvs k) k = option_map blank (dict_get kvs k).
Proof.
  unfold blank_none. destruct (dict_get kvs k) as [v|] eqn:E; simpl.
  - destruct v; simpl; rewrite ?E; auto. now rewrite dict_get_set_same.
  - now rewrite E.
Qed.

Lemma dict_get_blank_other kvs k k' :
  k <> k' -> dict_get (blank_none kvs k) k' = dict_get kvs k'.
Proof.
  intros Hne. unfold blank_none.
  destruct (dict_get kvs k) as [[]|]; auto using dict_get_set_other.
Qed.

Lemma blank_none_store kvs k v :
  dict_get kvs k = Some v ->
  match v with
  | PyNone => setitem_key (PyDict kvs) k (PyStr "")
  | _ => Returns (PyDict kvs)
  end = Returns (PyDict (blank_none kvs k)).
Proof. intros E. unfold blank_none. rewrite E. destruct v; reflexivity. Qed.

Lemma blank_twice v : blank (blank v) = blank v.
Proof. destruct v; reflexivity. Qed.

Lemma blank_none_settled kvs k v :
  dict_get kvs k = Some (blank v) -> blank_none kvs k = kvs.
Proof. intros E. unfold blank_none. rewrite E. destruct v; reflexivity. Qed.

Lemma prefix_app (a b : string) : prefix a (a ++ b) = true.
Proof.
  induction a as [|c a IH]; simpl.
  - destruct b; reflexivity.
  - destruct (ascii_dec c c); [exact IH|contradiction].
Qed.

Lemma append_empty (s : string) : s ++ "" = s.
Proof. induction s; simpl; congruence. Qed.

(** ** Row presenter *)

Section Presenter.
Context {rt : Runtime}.

(** What one pass of the loop body does to a mapping, read off its
    three keys. *)
Lemma render_tier_dict kvs :
  render_tier (PyDict kvs) =
    match dict_get kvs "qFrom", dict_get kvs "qTo", dict_get kvs "price" with
    | Some _, Some _, Some _ => Returns (tier_line (PyDict kvs), tier_after (PyDict kvs))
    | None, _, _ => Raises (KeyError "qFrom")
    | Some _, None, _ => Raises (KeyError "qTo")
    | Some _, Some _, None => Raises (KeyError "price")
    end.
Proof.
  unfold render_tier, tier_line, tier_after. cbn [getitem_key].
  destruct (dict_get kvs "qFrom") as [a|] eqn:Ea; [|reflexivity]. cbn [and_then].
  rewrite (blank_none_store kvs "qFrom" a Ea). cbn [and_then getitem_key].
  set (kvs1 := blank_none kvs "qFrom").
  assert (Ea1 : dict_get kvs1 "qFrom" = Some (blank a))
    by (unfold kvs1; now rewrite dict_get_blank_same, Ea).
  assert (Eb1 : dict_get kvs1 "qTo" = dict_get kvs "qTo")
    by (unfold kvs1; now rewrite dict_get_blank_other by discriminate).
  assert (Ec1 : dict_get kvs1 "price" = dict_get kvs "price")
    by (unfold kvs1; now rewrite dict_get_blank_other by discriminate).
  rewrite Eb1. destruct (dict_get kvs "qTo") as [b|] eqn:Eb; [|reflexivity]. cbn [and_then].
  rewrite (blank_none_store kvs1 "qTo" b Eb1). cbn [and_then getitem_key].
  rewrite (dict_get_blank_other kvs1 "qTo" "qFrom") by discriminate.
  rewrite (dict_get_blank_other kvs1 "qTo" "price") by discriminate.
  rewrite dict_get_blank_same, Ea1, Eb1, Ec1. cbn [and_then option_map].
  destruct (dict_get kvs "price") as [c|]; reflexivity.
Qed.

Lemma render_tier_readable p :
  tier_readable p = true -> render_tier p = Returns (tier_line p, tier_after p).
Proof.
  destruct p as [| | | | | |l|kvs]; try discriminate.
  rewrite render_tier_dict. unfold tier_readable, has_key.
  destruct (dict_get kvs "qFrom"), (dict_get kvs "qTo"), (dict_get kvs "price");
    try discriminate; reflexivity.
Qed.


(** A tier the loop has been over reads the same and is left alone by a
    second pass. *)
Lemma tier_after_settled p :
  tier_readable p = true ->
  tier_readable (tier_after p) = true
  /\ tier_line (tier_after p) = tier_line p
  /\ tier_after (tier_after p) = tier_after p.
Proof.
  destruct p as [| | | | | |l|kvs]; try discriminate. unfold tier_readable, has_key.
  destruct (dict_get kvs "qFrom") as [a|] eqn:Ea; try discriminate.
  destruct (dict_get kvs "qTo") as [b|] eqn:Eb; try discriminate.
  destruct (dict_get kvs "price") as [c|] eqn:Ec; try discriminate.
  intros _. unfold tier_after, tier_line.
  set (kvs1 := blank_none kvs "qFrom"). set (kvs2 := blank_none kvs1 "qTo").
  assert (Ea2 : dict_get kvs2 "qFrom" = Some (blank a)).
  { unfold kvs2, kvs1. rewrite dict_get_blank_other by discriminate.
    now rewrite dict_get_blank_same, Ea. }
  assert (Eb2 : dict_get kvs2 "qTo" = Some (blank b)).
  { unfold kvs2, kvs1. rewrite dict_get_blank_same.
    now rewrite dict_get_blank_other, Eb by discriminate. }
  assert (Ec2 : dict_get kvs2 "price" = Some c).
  { unfold kvs2, kvs1. now rewrite !dict_get_blank_other, Ec by discriminate. }
  rewrite Ea2, Eb2, Ec2, Ea, Eb, Ec, !blank_twice. repeat split.
  rewrite (blank_none_settled kvs2 "qFrom" a Ea2).
  now rewrite (blank_none_settled kvs2 "qTo" b Eb2).
Qed.

Lemma price_loop_readable ps : forall price,
  forallb tier_readable ps = true ->
  price_loop ps price = Returns ((price ++ map tier_line ps)%list, map tier_after ps).
Proof.
  induction ps as [|p rest IH]; intros price H; simpl.
  - now rewrite app_nil_r.
  - apply andb_prop in H. destruct H as [Hp Hrest].
    rewrite (render_tier_readable p Hp). cbn [and_then].
    rewrite (IH _ Hrest). cbn [and_then]. now rewrite <- app_assoc.
Qed.


Lemma render_prices_list tiers :
  forallb tier_readable tiers = true ->
  render_prices (PyList tiers) = Returns (join ", " (map tier_line tiers), PyList (map tier_after tiers)).
Proof.
  intros H. unfold render_prices. cbn [py_iter and_then].
  now rewrite (price_loop_readable tiers [] H).
Qed.


Lemma well_formed_tier_reads p :
  well_formed_tier p = true -> tier_readable p = true /\ tier_line p = tier_text p.
Proof.
  destruct p as [| | | | | |l|kvs]; try discriminate.
  unfold well_formed_tier, tier_readable, has_key, tier_line, tier_text.
  destruct (dict_get kvs "qFrom") as [a|]; try discriminate.
  destruct (dict_get kvs "qTo") as [b|]; try discriminate.
  destruct (dict_get kvs "price") as [c|]; try discriminate.
  intros H. apply andb_prop in H. destruct H as [H Hc]. apply andb_prop in H. destruct H as [Ha Hb].
  split; [reflexivity|].
  destruct a; try discriminate; destruct b; try discriminate; destruct c; try discriminate;
    reflexivity.
Qed.

Lemma well_formed_tiers_read tiers :
  forallb well_formed_tier tiers = true ->
  forallb tier_readable tiers = true /\ map tier_line tiers = map tier_text tiers.
Proof.
  induction tiers as [|p rest IH]; simpl; [auto|].
  intros H. apply andb_prop in H. destruct H as [Hp Hrest].
  destruct (well_formed_tier_reads p Hp) as [Hr Hl]. destruct (IH Hrest) as [Hrs Hls].
  rewrite Hr, Hrs, Hl, Hls. auto.
Qed.

Lemma tiers_after_settled tiers :
  forallb tier_readable tiers = true ->
  forallb tier_readable (map tier_after tiers) = true
  /\ map tier_line (map tier_after tiers) = map tier_line tiers
  /\ map tier_after (map tier_after tiers) = map tier_after tiers.
Proof.
  induction tiers as [|p rest IH]; simpl; [auto|].
  intros H. apply andb_prop in H. destruct H as [Hp Hrest].
  destruct (tier_after_settled p Hp) as [H1 [H2 H3]]. destruct (IH Hrest) as [H4 [H5 H6]].
  rewrite H1, H2, H3, H4, H5, H6. auto.
Qed.

Lemma price_cell_spec (r : row) (log : stderr) :
  price_cell r log = (Returns (price_text r), (log ++ diagnostic (price_try r))%list).
Proof.
  unfold price_cell, price_text, try_except, lift, bind, print_stderr, ret.
  destruct (price_try r); simpl; now rewrite ?app_nil_r.
Qed.

Lemma attributes_cell_spec (r : row) (log : stderr) :
  attributes_cell r log = (Returns (attributes_text r), (log ++ diagnostic (attributes_try r))%list).
Proof.
  unfold attributes_cell, attributes_text, try_except, lift, bind, print_stderr, ret.
  destruct (attributes_try r); simpl; now rewrite ?app_nil_r.
Qed.

Lemma row_line_spec (r : row) (log : stderr) :
  wide_enough r -> row_line r log = (Returns (row_text r), (log ++ row_diagnostics r)%list).
Proof.
  unfold wide_enough. intros Hw.
  destruct r as [|c0 [|c1 [|c2 [|c3 [|c4 [|c5 [|c6 [|c7 [|c8 rest]]]]]]]]]; simpl in Hw; try lia.
  set (r := c0 :: c1 :: c2 :: c3 :: c4 :: c5 :: c6 :: c7 :: c8 :: rest).
  assert (Hcol : forall (i : nat) c, nth_error r i = Some c -> row_get r (Z.of_nat i) = Returns c)
    by (intros i c; apply list_index_nth).
  unfold row_line, bind. rewrite price_cell_spec, attributes_cell_spec.
  unfold lift.
  rewrite (Hcol 0%nat c0 eq_refl : row_get r 0 = _), (Hcol 1%nat c1 eq_refl : row_get r 1 = _),
    (Hcol 2%nat c2 eq_refl : row_get r 2 = _), (Hcol 3%nat c3 eq_refl : row_get r 3 = _),
    (Hcol 4%nat c4 eq_refl : row_get r 4 = _), (Hcol 5%nat c5 eq_refl : row_get r 5 = _),
    (Hcol 6%nat c6 eq_refl : row_get r 6 = _), (Hcol 7%nat c7 eq_refl : row_get r 7 = _),
    (Hcol 8%nat c8 eq_refl : row_get r 8 = _).
  unfold row_diagnostics, ret. rewrite app_assoc. reflexivity.
Qed.

Lemma mapM_spec {A B} (f : A -> M B) (g : A -> B) (d : A -> list exn) (l : list A) :
  Forall (fun a => forall log, f a log = (Returns (g a), (log ++ d a)%list)) l ->
  forall log, mapM f l log = (Returns (map g l), (log ++ flat_map d l)%list).
Proof.
  induction 1 as [|a rest Ha _ IH]; intros log; simpl.
  - unfold ret. now rewrite app_nil_r.
  - unfold bind. rewrite Ha, IH. unfold ret. now rewrite app_assoc.
Qed.

Lemma search_parts_spec (q : SearchQuery) (rows : list row) (log : stderr) :
  conn_execute (query_text q) (params q) = Returns rows ->
  Forall wide_enough rows ->
  search_parts q log =
    (Returns (table_header ++ join nl (map row_text rows)), (log ++ flat_map row_diagnostics rows)%list).
Proof.
  intros Hstore Hw. unfold search_parts, bind. rewrite (for_each_drained _ _ _ _ _ Hstore).
  rewrite (mapM_spec row_line row_text row_diagnostics).
  - reflexivity.
  - eapply Forall_impl; [|exact Hw]. intros r Hr log'. now apply row_line_spec.
Qed.

Lemma search_parts_returns_table (q : SearchQuery) (log log' : stderr) (s : string) :
  search_parts q log = (Returns s, log') -> exists body, s = table_header ++ body.
Proof.
  unfold search_parts, bind.
  destruct (for_each row_line (conn_cursor (query_text q) (params q)) log)
    as [[lines|e] log1]; [|discriminate].
  unfold ret. intros H. injection H as Hs _. now exists (join nl lines).
Qed.


(** C4.  A sequence of well-formed tiers renders as the tier texts
    ["<qFrom>-<qTo> <price>USD/pc"], a null bound as the empty string,
    joined with [", "]; the loop leaves the tiers with their null bounds
    overwritten, and rendering them again gives the same text and
    changes nothing more.  The tier with [qFrom] null, [qTo] 10 and
    [price] 1.5 renders as ["-10 1.5USD/pc"]. *)
Theorem price_rendering (tiers : list value) :
  forallb well_formed_tier tiers = true ->
  render_prices (PyList tiers)
  = Returns (join ", " (map tier_text tiers), PyList (map tier_after tiers))
  /\ render_prices (PyList (map tier_after tiers))
     = Returns (join ", " (map tier_text tiers), PyList (map tier_after tiers))
  /\ (forall r c log, row_get r 9 = Returns c -> json_loads c = Returns (PyList tiers) ->
        price_cell r log = (Returns (join ", " (map tier_text tiers)), log))
  /\ render_prices (PyList [PyDict [("qFrom", PyNone); ("qTo", PyInt 10); ("price", PyFloat "1.5")]])
     = Returns ("-10 1.5USD/pc",
                PyList [PyDict [("qFrom", PyStr ""); ("qTo", PyInt 10); ("price", PyFloat "1.5")]]).
Proof.
  intros Hwf. destruct (well_formed_tiers_read tiers Hwf) as [Hread Hline].
  destruct (tiers_after_settled tiers Hread) as [Hread' [Hline' Hsame]].
  assert (H1 : render_prices (PyList tiers)
               = Returns (join ", " (map tier_text tiers), PyList (map tier_after tiers)))
    by (rewrite (render_prices_list tiers Hread); now rewrite Hline).
  split; [exact H1|]. split.
  { rewrite (render_prices_list _ Hread'). now rewrite Hline', Hsame, Hline. }
  split; [|reflexivity].
  intros r c log Hc Hv. rewrite price_cell_spec. unfold price_text, price_try.
  rewrite Hc. cbn [and_then]. rewrite Hv. cbn [and_then]. rewrite H1. cbn [and_then fst diagnostic].
  now rewrite app_nil_r.
Qed.

Lemma render_attributes_dict (extra : value) (entries : list (string * value)) :
  getitem_key extra "attributes" = Returns (PyDict entries) ->
  render_attributes extra
  = Returns (join ", " (map (fun kv => fst kv ++ ":" ++ py_str (snd kv)) entries)).
Proof. intros H. unfold render_attributes. now rewrite H. Qed.

Lemma attribute_text_shown (entries : list (string * value)) :
  forallb (fun kv => is_attribute_value (snd kv)) entries = true ->
  map (fun kv => fst kv ++ ":" ++ py_str (snd kv)) entries = map attribute_text entries.
Proof.
  induction entries as [|[k v] rest IH]; [reflexivity|].
  cbn [forallb map snd fst]. intros H. apply andb_prop in H. destruct H as [Hv Hrest].
  f_equal; [|exact (IH Hrest)].
  unfold attribute_text. destruct v; try discriminate; reflexivity.
Qed.

(** C6.  A mapping of attributes whose values are strings or numbers
    renders as one ["<key>:<value>"] per entry, in the order of the
    mapping, joined with [", "]; the mapping with [Resistance] 10k and
    [Tolerance] 1% renders as ["Resistance:10k, Tolerance:1%"]. *)
Theorem attribute_rendering (extra : value) (entries : list (string * value)) :
  getitem_key extra "attributes" = Returns (PyDict entries) ->
  forallb (fun kv => is_attribute_value (snd kv)) entries = true ->
  render_attributes extra = Returns (join ", " (map attribute_text entries))
  /\ List.length (map attribute_text entries) = List.length entries
  /\ (forall r c log, row_get r 10 = Returns c -> json_loads c = Returns extra ->
        attributes_cell r log = (Returns (join ", " (map attribute_text entries)), log))
  /\ render_attributes
       (PyDict [("attributes", PyDict [("Resistance", PyStr "10k"); ("Tolerance", PyStr "1%")])])
     = Returns "Resistance:10k, Tolerance:1%".
Proof.
  intros Hattr Hval.
  assert (H1 : render_attributes extra = Returns (join ", " (map attribute_text entries)))
    by (rewrite (render_attributes_dict extra entries Hattr); now rewrite attribute_text_shown).
  split; [exact H1|]. split; [apply length_map|]. split; [|reflexivity].
  intros r c log Hc Hv. rewrite attributes_cell_spec. unfold attributes_text, attributes_try.
  rewrite Hc. cbn [and_then]. rewrite Hv. cbn [and_then]. rewrite H1. cbn [diagnostic].
  now rewrite app_nil_r.
Qed.

(** C9.  Whatever [search_parts] returns begins with the two header
    lines; it returns whenever the store answers the query with rows of
    at least nine columns, with one line per row after the header, and
    for no rows exactly the header.  The lookups answer an empty result
    with [None] instead. *)
Theorem search_parts_header (q : SearchQuery) (log : stderr) :
  (forall s log', search_parts q log = (Returns s, log') -> prefix table_header s = true)
  /\ (forall rows, conn_execute (query_text q) (params q) = Returns rows ->
        Forall wide_enough rows ->
        exists lines log',
          List.length lines = List.length rows
          /\ search_parts q log = (Returns (table_header ++ join nl lines), log'))
  /\ (conn_execute (query_text q) (params q) = Returns [] ->
        search_parts q log = (Returns table_header, log))
  /\ table_header
     = "|Part Number|Category ID|Manufacturer ID|Manufacturer PN|Basic Parts|Preferred Parts|Description|Package|Stock|Price|Attributes|"
       ++ nl ++ "|--|--|--|--|--|--|--|--|--|--|--|" ++ nl
  /\ (forall name,
        conn_execute "SELECT id,name FROM manufacturers WHERE name LIKE ?" [PyStr ("%" ++ name ++ "%")]
        = Returns [] ->
        search_manufacturer name log = (Returns PyNone, log))
  /\ (forall id,
        conn_execute "SELECT category,subcategory FROM categories WHERE id=?" [PyInt id] = Returns [] ->
        get_category id log = (Returns PyNone, log))
  /\ (forall id,
        conn_execute "SELECT name FROM manufacturers WHERE id=?" [PyInt id] = Returns [] ->
        get_manufacturer id log = (Returns PyNone, log)).
Proof.
  split.
  { intros s log' H. destruct (search_parts_returns_table q log log' s H) as [body ->].
    apply prefix_app. }
  split.
  { intros rows Hstore Hw. exists (map row_text rows), (log ++ flat_map row_diagnostics rows)%list.
    split; [apply length_map|]. now apply search_parts_spec. }
  split.
  { intros Hstore. rewrite (search_parts_spec q [] log Hstore (Forall_nil _)).
    cbn [map flat_map join String.concat]. now rewrite append_empty, app_nil_r. }
  split; [reflexivity|].
  split; [|split].
  - intros name H. unfold search_manufacturer, bind.
    rewrite (for_each_drained _ _ _ _ _ H). reflexivity.
  - intros id H. unfold get_category, bind, lift. rewrite (fetchone_drained _ _ _ H). reflexivity.
  - intros id H. unfold get_manufacturer, bind, lift. rewrite (fetchone_drained _ _ _ H). reflexivity.
Qed.

End Presenter.

(** A well-formed tier list to run C4 on. *)
Lemma price_rendering_sample :
  forallb well_formed_tier Sample.price_tiers = true
  /\ render_prices (rt := Sample.runtime Sample.no_rows) (PyList Sample.price_tiers)
     = Returns ("-10 1.5USD/pc", PyList (map tier_after Sample.price_tiers)).
Proof.
  split; [reflexivity|].
  exact (proj1 (price_rendering (rt := Sample.runtime Sample.no_rows) Sample.price_tiers eq_refl)).
Defined.

(** An attribute mapping to run C6 on. *)
Lemma attribute_rendering_sample :
  render_attributes (rt := Sample.runtime Sample.no_rows) Sample.extra_value
  = Returns "Resistance:10k, Tolerance:1%".
Proof.
  exact (proj1 (attribute_rendering (rt := Sample.runtime Sample.no_rows)
                  Sample.extra_value Sample.attributes eq_refl eq_refl)).
Defined.

(** The table for a part with good metadata and one whose price column
    holds the text [oops]: the second price cell is the fallback, the
    attributes of both rows are rendered. *)
Example oops_price_in_one_row :
  search_parts (rt := Sample.runtime (Sample.answer [Sample.good_part; Sample.oops_part]))
               Sample.resistors []
  = (Returns (table_header
       ++ "|25804|5|12|0603WAF1002T5E|1|0|10k 1% 0603 resistor|0603|1000|-10 1.5USD/pc|Resistance:10k, Tolerance:1%|"
       ++ nl
       ++ "|25804|5|12|0603WAF1002T5E|1|0|10k 1% 0603 resistor|0603|1000|No info|Resistance:10k, Tolerance:1%|"),
     [JSONDecodeError]).
Proof. vm_compute. reflexivity. Qed.

(** ** Text of the extension *)

Lemma remove_char_absent c s : count_char c s = 0%nat -> remove_char c s = s.
Proof.
  induction s as [|a s IH]; simpl; auto.
  destruct (Ascii.eqb a c); [discriminate|]. intros H. now rewrite IH.
Qed.

Lemma substring_whole s : substring 0 (String.length s) s = s.
Proof. induction s; simpl; congruence. Qed.

Lemma count_char_append c (a b : string) :
  count_char c (a ++ b) = (count_char c a + count_char c b)%nat.
Proof. induction a as [|x a IH]; simpl; [reflexivity|]. rewrite IH. lia. Qed.

Lemma length_append (a b : string) :
  String.length (a ++ b) = (String.length a + String.length b)%nat.
Proof. induction a; simpl; congruence. Qed.

Lemma append_assoc (a b c : string) : (a ++ b) ++ c = a ++ b ++ c.
Proof. induction a; simpl; congruence. Qed.

Lemma substring_skip (a b : string) :
  substring (String.length a) (String.length b) (a ++ b) = b.
Proof. induction a; simpl; [apply substring_whole|assumption]. Qed.

Lemma substring_middle (a b c : string) :
  substring (String.length a) (String.length b) (a ++ b ++ c) = b.
Proof.
  induction a; simpl; [|assumption].
  induction b; simpl; [destruct c; reflexivity|]. congruence.
Qed.

Lemma rfind_from_absent c s : forall i last,
  count_char c s = 0%nat -> rfind_from c s i last = last.
Proof.
  induction s as [|a s IH]; intros i last; simpl; [reflexivity|].
  destruct (Ascii.eqb a c); [discriminate|]. apply IH.
Qed.

Lemma rfind_from_before c (a b : string) : forall i last,
  count_char c b = 0%nat -> rfind_from c (a ++ b) i last = rfind_from c a i last.
Proof.
  induction a as [|x a IH]; intros i last Hb; simpl.
  - now apply rfind_from_absent.
  - now apply IH.
Qed.

Lemma rfind_from_last c (a b : string) : forall i last,
  count_char c b = 0%nat ->
  rfind_from c (a ++ String c b) i last = i + Z.of_nat (String.length a).
Proof.
  induction a as [|x a IH]; intros i last Hb.
  - simpl. rewrite Ascii.eqb_refl. rewrite rfind_from_absent by assumption. lia.
  - simpl append. cbn [rfind_from String.length]. rewrite IH by assumption. lia.
Qed.

(** Where [rfind] finds nothing the character is absent; otherwise the
    string splits at the index into a front, the character, and a rest
    without it. *)
Lemma rfind_split c s :
  (rfind c s = -1 /\ count_char c s = 0%nat)
  \/ (exists a b, s = a ++ String c b /\ count_char c b = 0%nat
                  /\ rfind c s = Z.of_nat (String.length a)).
Proof.
  unfold rfind.
  assert (H : forall i last,
             (rfind_from c s i last = last /\ count_char c s = 0%nat)
             \/ (exists a b, s = a ++ String c b /\ count_char c b = 0%nat
                             /\ rfind_from c s i last = i + Z.of_nat (String.length a))).
  { induction s as [|x s IH]; intros i last; simpl.
    - left. auto.
    - destruct (IH (i + 1) (if Ascii.eqb x c then i else last)) as [[Hd Hc]|[a [b [Hs [Hb Hd]]]]].
      + destruct (Ascii.eqb x c) eqn:E.
        * right. exists EmptyString, s. apply Ascii.eqb_eq in E. subst x.
          split; [reflexivity|]. split; [exact Hc|]. simpl. lia.
        * left. auto.
      + right. exists (String x a), b. split; [simpl; congruence|]. split; [exact Hb|].
        rewrite Hd. cbn [String.length]. lia. }
  destruct (H 0 (-1)) as [[Hd Hc]|[a [b [Hs [Hb Hd]]]]]; [left; auto|].
  right. exists a, b. split; [exact Hs|]. split; [exact Hb|]. rewrite Hd. lia.
Qed.

Lemma rfind_lower_bound c s : -1 <= rfind c s.
Proof. destruct (rfind_split c s) as [[H _]|[a [b [_ [_ H]]]]]; lia. Qed.

(** Two ways of cutting the same string: the shorter front is a prefix
    of the longer one. *)
Lemma append_cut (a x d y : string) :
  a ++ x = d ++ y -> (String.length d <= String.length a)%nat ->
  exists m, a = d ++ m /\ y = m ++ x.
Proof.
  revert a. induction d as [|c d IH]; intros a H Hlen.
  - exists a. simpl in *. auto.
  - destruct a as [|c' a]; [simpl in Hlen; lia|].
    simpl in H. injection H as -> H. simpl in Hlen.
    destruct (IH a H ltac:(lia)) as [m [Ha Hy]]. exists m. split; [simpl; congruence|exact Hy].
Qed.

(** A path that has the extension [e] is split by [splitext] into a
    front and [.e]. *)
Lemma splitext_ext_sound path e :
  has_extension path e -> splitext_ext path = String "." e.
Proof.
  intros [dir [name [Hpath [Hdir [Hname [Hdots [He Hes]]]]]]].
  assert (Hlast : rfind "." path = Z.of_nat (String.length (dir ++ name))).
  { unfold rfind. rewrite Hpath, <- append_assoc.
    change ("." ++ e) with (String "." e). rewrite rfind_from_last by assumption. lia. }
  assert (Hsep : rfind "/" path + 1 = Z.of_nat (String.length dir)).
  { unfold rfind. rewrite Hpath.
    rewrite rfind_from_before
      by (rewrite count_char_append, Hname; change ("." ++ e) with (String "." e);
          simpl; exact Hes).
    destruct Hdir as [->|[d ->]]; [reflexivity|].
    change "/" with (String "/" EmptyString) at 2. rewrite rfind_from_last by reflexivity.
    rewrite length_append. simpl. lia. }
  assert (Hfront : String.length (dir ++ name) = (String.length dir + String.length name)%nat)
    by apply length_append.
  assert (Hlen : String.length path = (String.length (dir ++ name) + String.length ("." ++ e))%nat)
    by (rewrite Hpath, <- append_assoc; apply length_append).
  unfold splitext_ext. rewrite Hlast. unfold slice.
  replace (Z.to_nat (rfind "/" path + 1)) with (String.length dir) by lia.
  replace (Z.to_nat (Z.of_nat (String.length (dir ++ name)) - (rfind "/" path + 1)))
    with (String.length name) by lia.
  replace (rfind "/" path <? Z.of_nat (String.length (dir ++ name))) with true
    by (symmetry; apply Z.ltb_lt; lia).
  rewrite Nat2Z.id.
  replace (Z.to_nat (Z.of_nat (String.length path) - Z.of_nat (String.length (dir ++ name))))
    with (String.length ("." ++ e)) by lia.
  rewrite Hpath at 1. rewrite substring_middle, Hdots. cbn [andb negb].
  rewrite Hpath, <- append_assoc. apply substring_skip.
Qed.

(** Whatever [splitext] splits off is the extension of the path. *)
Lemma splitext_ext_complete path :
  splitext_ext path = EmptyString
  \/ exists e, has_extension path e /\ splitext_ext path = String "." e.
Proof.
  destruct ((rfind "/" path <? rfind "." path)
            && negb (all_char "." (slice path (rfind "/" path + 1) (rfind "." path)))) eqn:E;
    [right|left; unfold splitext_ext; now rewrite E].
  apply andb_prop in E. destruct E as [Elt Edots].
  apply Z.ltb_lt in Elt. apply negb_true_iff in Edots.
  destruct (rfind_split "." path) as [[Hd _]|[a [e [Hpath [He Hd]]]]].
  { pose proof (rfind_lower_bound "/" path). lia. }
  assert (Hfound : exists dir name,
            a = dir ++ name /\ is_directory dir /\ count_char "/" name = 0%nat
            /\ count_char "/" e = 0%nat /\ rfind "/" path + 1 = Z.of_nat (String.length dir)).
  { destruct (rfind_split "/" path) as [[Hs Hc]|[d [b [Hpath' [Hb Hs]]]]].
    - exists EmptyString, a. rewrite Hpath, count_char_append in Hc. simpl in Hc.
      split; [reflexivity|]. split; [now left|]. split; [lia|]. split; [lia|]. rewrite Hs. reflexivity.
    - assert (Hcut : exists m, a = (d ++ "/") ++ m /\ b = m ++ String "." e).
      { apply append_cut.
        - rewrite <- Hpath. rewrite Hpath'. now rewrite append_assoc.
        - rewrite length_append. simpl. lia. }
      destruct Hcut as [m [Ha Hbm]]. exists (d ++ "/"), m.
      rewrite Hbm, count_char_append in Hb. simpl in Hb.
      split; [exact Ha|]. split; [right; now exists d|]. split; [lia|]. split; [lia|].
      rewrite Hs, length_append. simpl. lia. }
  destruct Hfound as [dir [name [Ha [Hdir [Hname [Hes Hsep]]]]]].
  assert (Hpath2 : path = dir ++ name ++ "." ++ e)
    by (rewrite Hpath, Ha; now rewrite append_assoc).
  assert (Hnamedots : all_char "." name = false).
  { revert Edots. unfold slice.
    replace (Z.to_nat (rfind "/" path + 1)) with (String.length dir) by lia.
    replace (Z.to_nat (rfind "." path - (rfind "/" path + 1))) with (String.length name)
      by (rewrite Hd, Ha, length_append; lia).
    rewrite Hpath2 at 1. now rewrite substring_middle. }
  assert (Hext : has_extension path e).
  { exists dir, name. repeat split; assumption. }
  exists e. split; [exact Hext|]. now apply splitext_ext_sound.
Qed.

(** ** Image selector and lookups *)

Section Selector.
Context {rt : Runtime}.

Lemma get_part_image_spec (part_id : Z) (log : stderr) :
  get_part_image part_id log =
    match get_part_image_try part_id with
    | Returns res => (Returns res, log)
    | Raises e => (Returns None, (log ++ [e])%list)
    end.
Proof.
  unfold get_part_image, try_except, lift, bind, print_stderr, ret.
  destruct (get_part_image_try part_id); reflexivity.
Qed.

Lemma get_part_image_try_row (part_id : Z) (c0 : value) (cols : row) (rest : list row) :
  conn_execute extra_query [PyInt part_id] = Returns ((c0 :: cols) :: rest) ->
  get_part_image_try part_id =
    (let? images := image_manifest c0 in
     let? url := select_url images in
     let? ext := url_extension url in
     let? data := fetch url in
     let? img := Image data (normalize_ext ext) in
     Returns (Some img)).
Proof.
  intros H. unfold get_part_image_try. fold extra_query.
  rewrite (fetchone_drained _ _ _ H). reflexivity.
Qed.

(** The same for a cursor that yields a first row, whatever comes
    after it. *)
Lemma get_part_image_try_first (part_id : Z) (c0 : value) (cols : row) (next : cursor) :
  conn_cursor extra_query [PyInt part_id] = Yield (c0 :: cols) next ->
  get_part_image_try part_id =
    (let? images := image_manifest c0 in
     let? url := select_url images in
     let? ext := url_extension url in
     let? data := fetch url in
     let? img := Image data (normalize_ext ext) in
     Returns (Some img)).
Proof.
  intros H. unfold get_part_image_try. fold extra_query. rewrite H. reflexivity.
Qed.

Lemma select_url_middle (entries : list (string * value)) (url : value) :
  nth_error (map snd entries) (List.length entries / 2) = Some url ->
  select_url (PyDict entries) = Returns url.
Proof.
  intros H. unfold select_url. cbn [dict_values py_len and_then].
  rewrite Z.quot_div_nonneg by lia.
  change 2 with (Z.of_nat 2). rewrite <- Nat2Z.inj_div.
  now apply list_index_nth.
Qed.

(** C5.  For a manifest mapping with [n >= 1] entries the selector takes
    the value at position [n / 2] of the mapping's values and goes on
    with that url; for an empty mapping the index is out of range and
    the caller gets [None].  With three entries it is the second value,
    with one entry the only one. *)
Theorem middle_image_selected (entries : list (string * value)) :
  ((1 <= List.length entries)%nat ->
   exists url,
     nth_error (map snd entries) (List.length entries / 2) = Some url
     /\ select_url (PyDict entries) = Returns url
     /\ (forall part_id c0 cols rest,
           conn_execute extra_query [PyInt part_id] = Returns ((c0 :: cols) :: rest) ->
           image_manifest c0 = Returns (PyDict entries) ->
           get_part_image_try part_id =
             (let? ext := url_extension url in
              let? data := fetch url in
              let? img := Image data (normalize_ext ext) in
              Returns (Some img))))
  /\ (entries = [] ->
      select_url (PyDict entries) = Raises IndexError
      /\ (forall part_id c0 cols rest log,
            conn_execute extra_query [PyInt part_id] = Returns ((c0 :: cols) :: rest) ->
            image_manifest c0 = Returns (PyDict entries) ->
            get_part_image part_id log = (Returns None, (log ++ [IndexError])%list)))
  /\ (forall a b c, select_url (PyDict [a; b; c]) = Returns (snd b))
  /\ (forall a, select_url (PyDict [a]) = Returns (snd a)).
Proof.
  split; [|split; [|split; reflexivity]].
  - intros Hn.
    destruct (nth_error (map snd entries) (List.length entries / 2)) as [url|] eqn:E.
    + exists url. split; [reflexivity|]. split; [now apply select_url_middle|].
      intros part_id c0 cols rest Hrow Himages.
      rewrite (get_part_image_try_row part_id c0 cols rest Hrow), Himages. cbn [and_then].
      now rewrite (select_url_middle entries url E).
    + exfalso. apply nth_error_None in E. rewrite length_map in E.
      assert (List.length entries / 2 < List.length entries)%nat
        by (apply Nat.div_lt; lia).
      lia.
  - intros ->. split; [reflexivity|].
    intros part_id c0 cols rest log Hrow Himages. rewrite get_part_image_spec.
    rewrite (get_part_image_try_row part_id c0 cols rest Hrow), Himages. reflexivity.
Qed.

(** C8.  The format tag handed to [Image] is the file extension of the
    url's path: for a path that reads [dir ++ name ++ "." ++ e], with
    [name] a file name and [e] free of dots and slashes, it is [e], and
    for a path that cannot be read so it is empty; [jpg] alone is
    replaced, by [jpeg], while [png] and every other extension pass
    unchanged. *)
Theorem format_tag_is_extension (u path : string) :
  urlparse_path u = Returns path ->
  (forall e, has_extension path e -> url_extension (PyStr u) = Returns e)
  /\ ((forall e, ~ has_extension path e) -> url_extension (PyStr u) = Returns "")
  /\ (forall e part_id c0 cols rest images data,
        url_extension (PyStr u) = Returns e ->
        conn_execute extra_query [PyInt part_id] = Returns ((c0 :: cols) :: rest) ->
        image_manifest c0 = Returns images -> select_url images = Returns (PyStr u) ->
        urlopen_read u = Returns data ->
        get_part_image_try part_id =
          (let? img := Image data (if String.eqb e "jpg" then "jpeg" else e) in Returns (Some img)))
  /\ normalize_ext "jpg" = "jpeg"
  /\ normalize_ext "png" = "png"
  /\ (forall x, x <> "jpg" -> normalize_ext x = x).
Proof.
  intros Hpath.
  assert (Hext : url_extension (PyStr u) = Returns (remove_char "." (splitext_ext path)))
    by (unfold url_extension; now rewrite Hpath).
  split.
  { intros e He. rewrite Hext, (splitext_ext_sound path e He). simpl.
    destruct He as [dir [name [_ [_ [_ [_ [He _]]]]]]]. now rewrite remove_char_absent. }
  split.
  { intros Hnone. rewrite Hext.
    destruct (splitext_ext_complete path) as [->|[e [He _]]]; [reflexivity|].
    now contradiction (Hnone e). }
  split; [|split; [reflexivity|split; [reflexivity|]]].
  - intros e part_id c0 cols rest images data He Hrow Hm Hsel Hfetch.
    rewrite (get_part_image_try_row part_id c0 cols rest Hrow), Hm. cbn [and_then].
    rewrite Hsel. cbn [and_then]. rewrite He. cbn [and_then fetch]. rewrite Hfetch.
    reflexivity.
  - intros x Hx. unfold normalize_ext. destruct (String.eqb x "jpg") eqn:E; [|reflexivity].
    apply String.eqb_eq in E. contradiction.
Qed.

End Selector.

(** C10.  [get_datasheet_url] answers [None] for a part without a row
    and for a part whose row holds [NULL] in the datasheet column; the
    two answers are the same value with the same output on [stderr]. *)
Theorem datasheet_none_twice (absent null : Runtime) (part_id : Z) (cols : row) (rest : list row)
    (log : stderr) :
  conn_execute (Runtime := absent) datasheet_query [PyInt part_id] = Returns [] ->
  conn_execute (Runtime := null) datasheet_query [PyInt part_id] = Returns ((PyNone :: cols) :: rest) ->
  get_datasheet_url (rt := absent) part_id log = (Returns PyNone, log)
  /\ get_datasheet_url (rt := null) part_id log = (Returns PyNone, log)
  /\ get_datasheet_url (rt := absent) part_id log = get_datasheet_url (rt := null) part_id log.
Proof.
  intros Habsent Hnull.
  assert (H1 : get_datasheet_url (rt := absent) part_id log = (Returns PyNone, log))
    by (unfold get_datasheet_url, bind, lift; fold datasheet_query;
        now rewrite (fetchone_drained (rt := absent) _ _ _ Habsent)).
  assert (H2 : get_datasheet_url (rt := null) part_id log = (Returns PyNone, log))
    by (unfold get_datasheet_url, bind, lift; fold datasheet_query;
        now rewrite (fetchone_drained (rt := null) _ _ _ Hnull)).
  split; [exact H1|]. split; [exact H2|]. now rewrite H1, H2.
Qed.

(** The path of the middle image of the sample part has the extension
    [jpg]: C8 gives [jpg] for the url, which is tagged [jpeg]. *)
Lemma format_tag_sample :
  has_extension "/224/C25804.jpg" "jpg"
  /\ url_extension (rt := Sample.runtime Sample.no_rows) (PyStr "https://img.example/224/C25804.jpg")
     = Returns "jpg"
  /\ normalize_ext "jpg" = "jpeg".
Proof.
  assert (Hext : has_extension "/224/C25804.jpg" "jpg").
  { exists "/224/", "C25804". repeat split; try reflexivity. right. now exists "/224". }
  split; [exact Hext|]. split; [|reflexivity].
  exact (proj1 (format_tag_is_extension (rt := Sample.runtime Sample.no_rows)
                  "https://img.example/224/C25804.jpg" "/224/C25804.jpg" eq_refl)
           "jpg" Hext).
Defined.

(** A store without the part and a store with a [NULL] datasheet, to run
    C10 on. *)
Lemma datasheet_none_sample :
  get_datasheet_url (rt := Sample.runtime Sample.no_rows) 25804 []
  = get_datasheet_url (rt := Sample.runtime (Sample.answer [[PyNone]])) 25804 [].
Proof.
  exact (proj2 (proj2 (datasheet_none_twice (Sample.runtime Sample.no_rows)
                         (Sample.runtime (Sample.answer [[PyNone]]))
                         25804 [] [] [] eq_refl eq_refl))).
Defined.

(** The sample part has three images; the selector fetches the second
    and tags it [jpeg]. *)
Example middle_image_of_three :
  get_part_image (rt := Sample.runtime (Sample.answer [[PyStr Sample.extra_doc]])) 25804 []
  = (Returns (Some ("bytes of https://img.example/224/C25804.jpg", "jpeg")), []).
Proof. vm_compute. reflexivity. Qed.

(** With the store down the selector answers [None] and prints the
    error, while the datasheet lookup raises it. *)
Example store_down_selector_and_lookup :
  get_part_image (rt := Sample.runtime Sample.store_down) 25804 []
  = (Returns None, [OperationalError "disk I/O error"])
  /\ get_datasheet_url (rt := Sample.runtime Sample.store_down) 25804 []
     = (Raises (OperationalError "disk I/O error"), []).
Proof. split; vm_compute; reflexivity. Qed.

(** No part matches: the table is the header alone, while the
    manufacturer search answers [None]. *)
Example empty_result_is_header :
  search_parts (rt := Sample.runtime Sample.no_rows) Sample.resistors [] = (Returns table_header, [])
  /\ search_manufacturer (rt := Sample.runtime Sample.no_rows) "YAG" [] = (Returns PyNone, []).
Proof. split; vm_compute; reflexivity. Qed.

(** * Further properties of the server *)

(** ** Reference tables and lookups *)

Lemma flat_map_nothing {A B} (l : list A) : flat_map (fun _ : A => @nil B) l = [].
Proof. induction l; simpl; auto. Qed.

(** A loop whose body never prints leaves the log where it was. *)
Lemma mapM_silent {A B} (f : A -> M B) (l : list A) :
  (forall a log, snd (f a log) = log) -> forall log, snd (mapM f l log) = log.
Proof.
  intros Hf. induction l as [|a rest IH]; intros log; simpl; [reflexivity|].
  unfold bind. specialize (Hf a log). destruct (f a log) as [[b|e] log1]; simpl in Hf; subst log1.
  - specialize (IH log). destruct (mapM f rest log) as [[bs|e] log2]; simpl in *; now subst.
  - reflexivity.
Qed.

Lemma for_each_silent {B} (f : list value -> M B) (c : cursor) :
  (forall r log, snd (f r log) = log) -> forall log, snd (for_each f c log) = log.
Proof.
  intros Hf. induction c as [| |r next IH]; intros log; simpl; [reflexivity|reflexivity|].
  unfold bind. specialize (Hf r log). destruct (f r log) as [[b|e] log1]; simpl in Hf; subst log1.
  - specialize (IH log). destruct (for_each f next log) as [[bs|e] log2]; simpl in *; now subst.
  - reflexivity.
Qed.

Lemma lift_bind_silent {A B} (o : outcome A) (k : A -> M B) (log : stderr) :
  (forall a, snd (k a log) = log) -> snd ((x <- lift o ;; k x) log) = log.
Proof. intros Hk. unfold bind, lift. destruct o; simpl; auto. Qed.

(** Reads the columns of a row whose first cells are known. *)
Ltac read_columns :=
  unfold lift;
  repeat match goal with
         | |- context [row_get ?r ?i] =>
             rewrite (list_index_nth r (Z.to_nat i) _ eq_refl : row_get r i = _)
         end.

Section Lookups.
Context {rt : Runtime}.

Lemma category_line_spec (r : row) (log : stderr) :
  at_least 3 r ->
  (c0 <- lift (row_get r 0) ;; c1 <- lift (row_get r 1) ;; c2 <- lift (row_get r 2) ;;
   ret ("|" ++ py_str c0 ++ "|" ++ py_str c1 ++ "|" ++ py_str c2 ++ "|")) log
  = (Returns (category_line r), (log ++ [])%list).
Proof.
  unfold at_least. intros Hw. destruct r as [|c0 [|c1 [|c2 rest]]]; simpl in Hw; try lia.
  rewrite app_nil_r. unfold bind. read_columns. reflexivity.
Qed.

Lemma manufacturer_line_spec (r : row) (log : stderr) :
  at_least 2 r ->
  (c0 <- lift (row_get r 0) ;; c1 <- lift (row_get r 1) ;;
   ret ("|" ++ py_str c0 ++ "|" ++ py_str c1 ++ "|")) log
  = (Returns (manufacturer_line r), (log ++ [])%list).
Proof.
  unfold at_least. intros Hw. destruct r as [|c0 [|c1 rest]]; simpl in Hw; try lia.
  rewrite app_nil_r. unfold bind. read_columns. reflexivity.
Qed.

(** X1.  When the store answers with rows of three columns,
    [list_categories] returns the two header lines followed by one line
    [|id|category|subcategory|] per row, in the order of the store; a
    [NULL] column shows as [None], an empty table gives the header
    alone, and nothing goes to [stderr]. *)
Theorem list_categories_table (rows : list row) (log : stderr) :
  conn_execute categories_query [] = Returns rows ->
  Forall (at_least 3) rows ->
  list_categories log
  = (Returns ("|Category ID|Category Name|Subcategory Name|" ++ nl ++ "|--|--|--|" ++ nl
              ++ join nl (map category_line rows)), log)
  /\ List.length (map category_line rows) = List.length rows
  /\ (forall c0 c1 c2 cols,
        category_line (c0 :: c1 :: c2 :: cols)
        = "|" ++ py_str c0 ++ "|" ++ py_str c1 ++ "|" ++ py_str c2 ++ "|")
  /\ py_str PyNone = "None".
Proof.
  intros Hstore Hw. split; [|split; [apply length_map|split; reflexivity]].
  unfold list_categories. fold categories_query. unfold bind at 1.
  rewrite (for_each_drained _ _ _ _ _ Hstore).
  rewrite (mapM_spec _ category_line (fun _ => [])).
  - unfold ret. now rewrite flat_map_nothing, app_nil_r.
  - eapply Forall_impl; [|exact Hw]. intros r Hr log'. now apply category_line_spec.
Qed.

(** X2.  When the store answers with rows of two columns,
    [list_manufacturers] returns the two header lines followed by one
    line [|id|name|] per row, in the order of the store, and nothing
    goes to [stderr]. *)
Theorem list_manufacturers_table (rows : list row) (log : stderr) :
  conn_execute manufacturers_query [] = Returns rows ->
  Forall (at_least 2) rows ->
  list_manufacturers log
  = (Returns ("|Manufacturer ID|Manufacturer Name|" ++ nl ++ "|--|--|" ++ nl
              ++ join nl (map manufacturer_line rows)), log)
  /\ List.length (map manufacturer_line rows) = List.length rows
  /\ (forall c0 c1 cols,
        manufacturer_line (c0 :: c1 :: cols) = "|" ++ py_str c0 ++ "|" ++ py_str c1 ++ "|").
Proof.
  intros Hstore Hw. split; [|split; [apply length_map|reflexivity]].
  unfold list_manufacturers. fold manufacturers_query. unfold bind at 1.
  rewrite (for_each_drained _ _ _ _ _ Hstore).
  rewrite (mapM_spec _ manufacturer_line (fun _ => [])).
  - unfold ret. now rewrite flat_map_nothing, app_nil_r.
  - eapply Forall_impl; [|exact Hw]. intros r Hr log'. now apply manufacturer_line_spec.
Qed.

(** X3.  [get_category] reads the first row only.  With a first row of
    two columns it returns the sentence built from them, even when both
    are [NULL]; it returns [None] exactly when the store has no row for
    the id. *)
Theorem get_category_answer (id : Z) (rows : list row) (log : stderr) :
  conn_execute category_query [PyInt id] = Returns rows ->
  Forall (at_least 2) rows ->
  (forall c0 c1 cols rest, rows = (c0 :: c1 :: cols) :: rest ->
     get_category id log
     = (Returns (PyStr ("Category: " ++ py_str c0 ++ ", Subcategory: " ++ py_str c1)), log))
  /\ (rows = [] <-> get_category id log = (Returns PyNone, log)).
Proof.
  intros Hstore Hw.
  assert (Hrun : get_category id log =
            match found (hd_error rows) with
            | Some result =>
                (c0 <- lift (row_get result 0) ;; c1 <- lift (row_get result 1) ;;
                 ret (PyStr ("Category: " ++ py_str c0 ++ ", Subcategory: " ++ py_str c1))) log
            | None => (Returns PyNone, log)
            end).
  { unfold get_category, bind at 1, lift at 1. fold category_query.
    rewrite (fetchone_drained _ _ _ Hstore).
    destruct rows as [|[|c cs] rest]; reflexivity. }
  split.
  - intros c0 c1 cols rest ->. rewrite Hrun. cbn [hd_error found]. unfold bind.
    read_columns. reflexivity.
  - split.
    + intros ->. rewrite Hrun. reflexivity.
    + destruct rows as [|r rest]; [reflexivity|]. intros H. exfalso.
      inversion Hw as [|? ? Hr _]; subst. unfold at_least in Hr.
      destruct r as [|c0 [|c1 cols]]; simpl in Hr; try lia.
      rewrite Hrun in H. cbn [hd_error found] in H. unfold bind in H. revert H.
      read_columns. discriminate.
Qed.

(** X4.  [get_manufacturer] hands back the first column of the first
    row as it is; its answer is [None] exactly when the store has no row
    for the id or the name in that row is [NULL]. *)
Theorem get_manufacturer_answer (id : Z) (rows : list row) (log : stderr) :
  conn_execute manufacturer_query [PyInt id] = Returns rows ->
  Forall (at_least 1) rows ->
  (forall c0 cols rest, rows = (c0 :: cols) :: rest ->
     get_manufacturer id log = (Returns c0, log))
  /\ (get_manufacturer id log = (Returns PyNone, log)
      <-> rows = [] \/ exists cols rest, rows = (PyNone :: cols) :: rest).
Proof.
  intros Hstore Hw.
  assert (Hrun : get_manufacturer id log =
            match found (hd_error rows) with
            | Some result => lift (row_get result 0) log
            | None => (Returns PyNone, log)
            end).
  { unfold get_manufacturer, bind at 1, lift at 1. fold manufacturer_query.
    rewrite (fetchone_drained _ _ _ Hstore).
    destruct rows as [|[|c cs] rest]; reflexivity. }
  split.
  - intros c0 cols rest ->. rewrite Hrun. reflexivity.
  - destruct rows as [|r rest].
    + split; [now left|]. intros _. rewrite Hrun. reflexivity.
    + inversion Hw as [|? ? Hr _]; subst. unfold at_least in Hr.
      destruct r as [|c0 cols]; simpl in Hr; try lia.
      rewrite Hrun. cbn [hd_error found]. split.
      * intros H. right. exists cols, rest.
        assert (Hc : c0 = PyNone) by (unfold lift in H; cbn in H; congruence).
        now rewrite Hc.
      * intros [H|[cols' [rest' H]]]; [discriminate|]. injection H as -> _ _. reflexivity.
Qed.

(** X5.  [search_manufacturer] binds the pattern [%name%] and, for rows
    of two columns, returns [None] exactly when no row matches;
    otherwise the column-name line, without a separator line, followed
    by one line [|id|name|] per row in the order of the store. *)
Theorem search_manufacturer_table (name : string) (rows : list row) (log : stderr) :
  conn_execute manufacturer_search_query [PyStr ("%" ++ name ++ "%")] = Returns rows ->
  Forall (at_least 2) rows ->
  (rows = [] <-> search_manufacturer name log = (Returns PyNone, log))
  /\ (rows <> [] ->
      search_manufacturer name log
      = (Returns (PyStr ("|Manufacturer ID|Manufacturer Name|" ++ nl
                         ++ join nl (map manufacturer_line rows))), log)).
Proof.
  intros Hstore Hw.
  assert (Hrun : search_manufacturer name log =
            match map manufacturer_line rows with
            | _ :: _ =>
                (Returns (PyStr ("|Manufacturer ID|Manufacturer Name|" ++ nl
                                 ++ join nl (map manufacturer_line rows))), log)
            | [] => (Returns PyNone, log)
            end).
  { unfold search_manufacturer. fold manufacturer_search_query. unfold bind at 1.
    rewrite (for_each_drained _ _ _ _ _ Hstore).
    rewrite (mapM_spec _ manufacturer_line (fun _ => [])).
    - rewrite flat_map_nothing, app_nil_r. destruct (map manufacturer_line rows); reflexivity.
    - eapply Forall_impl; [|exact Hw]. intros r Hr log'. now apply manufacturer_line_spec. }
  rewrite Hrun. destruct rows as [|r rest]; cbn [map].
  - split; [tauto|]. intros H. now contradiction H.
  - split; [|reflexivity]. split; discriminate.
Qed.

(** X6.  The six operations without a [try] statement never write to
    [stderr], whether they return or raise. *)
Theorem lookups_never_print (log : stderr) :
  snd (list_categories log) = log
  /\ snd (list_manufacturers log) = log
  /\ (forall id, snd (get_category id log) = log)
  /\ (forall id, snd (get_manufacturer id log) = log)
  /\ (forall name, snd (search_manufacturer name log) = log)
  /\ (forall id, snd (get_datasheet_url id log) = log).
Proof.
  assert (Hline3 : forall (r : row) log',
            snd ((c0 <- lift (row_get r 0) ;; c1 <- lift (row_get r 1) ;; c2 <- lift (row_get r 2) ;;
                  ret ("|" ++ py_str c0 ++ "|" ++ py_str c1 ++ "|" ++ py_str c2 ++ "|")) log') = log').
  { intros r log'. repeat (apply lift_bind_silent; intros). reflexivity. }
  assert (Hline2 : forall (r : row) log',
            snd ((c0 <- lift (row_get r 0) ;; c1 <- lift (row_get r 1) ;;
                  ret ("|" ++ py_str c0 ++ "|" ++ py_str c1 ++ "|")) log') = log').
  { intros r log'. repeat (apply lift_bind_silent; intros). reflexivity. }
  assert (Hloop : forall {B C} (f : row -> M B) (k : list B -> M C) c,
            (forall r log', snd (f r log') = log') -> (forall bs, snd (k bs log) = log) ->
            snd ((lines <- for_each f c ;; k lines) log) = log).
  { intros B C f k c Hf Hk. unfold bind. pose proof (for_each_silent f c Hf log) as Hm.
    destruct (for_each f c log) as [[bs|e] log1]; simpl in Hm; subst log1; [apply Hk|reflexivity]. }
  repeat split; intros;
    unfold list_categories, list_manufacturers, get_category, get_manufacturer,
      search_manufacturer, get_datasheet_url.
  - apply Hloop; [exact Hline3|reflexivity].
  - apply Hloop; [exact Hline2|reflexivity].
  - apply lift_bind_silent; intros result. destruct (found result); [|reflexivity].
    repeat (apply lift_bind_silent; intros). reflexivity.
  - apply lift_bind_silent; intros result. destruct (found result); [|reflexivity].
    unfold lift. reflexivity.
  - apply Hloop; [exact Hline2|]. intros [|b bs]; reflexivity.
  - apply lift_bind_silent; intros result. destruct (found result); [|reflexivity].
    unfold lift. reflexivity.
Qed.

End Lookups.

(** ** Failures of the store and of the image chain *)

(** A cursor that breaks after some rows: the loop deals with these
    rows and then raises the exception of the store. *)
Lemma for_each_broken {B} (f : list value -> M B) (g : list value -> B)
    (d : list value -> list exn) (rows : list (list value)) (e : exn) :
  Forall (fun r => forall log, f r log = (Returns (g r), (log ++ d r)%list)) rows ->
  forall log, for_each f (rows_then rows (Broken e)) log = (Raises e, (log ++ flat_map d rows)%list).
Proof.
  induction 1 as [|r rest Hr _ IH]; intros log; simpl.
  - unfold raise. now rewrite app_nil_r.
  - unfold bind. rewrite Hr, IH. now rewrite app_assoc.
Qed.

Section StoreFailures.
Context {rt : Runtime}.

(** C7, amended.  [get_part_image] never raises.  Every exception
    raised in its chain (the store failing before the first row,
    [json.loads] rejecting the column, a manifest without entries, the
    fetch failing, [Image] raising) is printed to [stderr] and answered
    with [None].  A part without a row is answered with [None] as well,
    but from the [else] branch: nothing is caught and nothing is
    printed.  An extension that names no image format is no failure:
    whatever the extension is, the image that [Image] builds is
    returned.  The other operations let an exception of the store
    through, the loops after the rows drawn before it. *)
Theorem image_selector_never_raises (part_id : Z) (log : stderr) :
  (exists res log', get_part_image part_id log = (Returns res, log'))
  /\ (forall e, get_part_image_try part_id = Raises e ->
        get_part_image part_id log = (Returns None, (log ++ [e])%list))
  /\ (forall res, get_part_image_try part_id = Returns res ->
        get_part_image part_id log = (Returns res, log))
  /\ (forall e, conn_cursor extra_query [PyInt part_id] = Broken e ->
        get_part_image part_id log = (Returns None, (log ++ [e])%list))
  /\ (conn_execute extra_query [PyInt part_id] = Returns [] ->
        get_part_image part_id log = (Returns None, log))
  /\ (forall c0 cols next,
        conn_cursor extra_query [PyInt part_id] = Yield (c0 :: cols) next ->
        (forall e, json_loads c0 = Raises e ->
           get_part_image part_id log = (Returns None, (log ++ [e])%list))
        /\ (image_manifest c0 = Returns (PyDict []) ->
              get_part_image part_id log = (Returns None, (log ++ [IndexError])%list))
        /\ (forall images u path,
              image_manifest c0 = Returns images -> select_url images = Returns (PyStr u) ->
              urlparse_path u = Returns path ->
              (forall e, urlopen_read u = Raises e ->
                 get_part_image part_id log = (Returns None, (log ++ [e])%list))
              /\ (forall data e, urlopen_read u = Returns data ->
                    Image data (normalize_ext (remove_char "." (splitext_ext path))) = Raises e ->
                    get_part_image part_id log = (Returns None, (log ++ [e])%list))
              /\ (forall data img, urlopen_read u = Returns data ->
                    Image data (normalize_ext (remove_char "." (splitext_ext path))) = Returns img ->
                    get_part_image part_id log = (Returns (Some img), log))))
  /\ (forall e, conn_cursor datasheet_query [PyInt part_id] = Broken e ->
        get_datasheet_url part_id log = (Raises e, log))
  /\ (forall e id, conn_cursor category_query [PyInt id] = Broken e ->
        get_category id log = (Raises e, log))
  /\ (forall e id, conn_cursor manufacturer_query [PyInt id] = Broken e ->
        get_manufacturer id log = (Raises e, log))
  /\ (forall e name before,
        conn_cursor manufacturer_search_query [PyStr ("%" ++ name ++ "%")]
        = rows_then before (Broken e) ->
        Forall (at_least 2) before ->
        search_manufacturer name log = (Raises e, log))
  /\ (forall e before,
        conn_cursor categories_query [] = rows_then before (Broken e) ->
        Forall (at_least 3) before ->
        list_categories log = (Raises e, log))
  /\ (forall e before,
        conn_cursor manufacturers_query [] = rows_then before (Broken e) ->
        Forall (at_least 2) before ->
        list_manufacturers log = (Raises e, log))
  /\ (forall e q before,
        conn_cursor (query_text q) (params q) = rows_then before (Broken e) ->
        Forall wide_enough before ->
        search_parts q log = (Raises e, (log ++ flat_map row_diagnostics before)%list)).
Proof.
  assert (Hcaught : forall e, get_part_image_try part_id = Raises e ->
            get_part_image part_id log = (Returns None, (log ++ [e])%list))
    by (intros e He; rewrite get_part_image_spec; now rewrite He).
  assert (Hlines2 : forall before,
            Forall (at_least 2) before ->
            Forall (fun r => forall log',
                      (c0 <- lift (row_get r 0) ;; c1 <- lift (row_get r 1) ;;
                       ret ("|" ++ py_str c0 ++ "|" ++ py_str c1 ++ "|")) log'
                      = (Returns (manufacturer_line r), (log' ++ [])%list)) before).
  { intros before Hw. eapply Forall_impl; [|exact Hw].
    intros r Hr log'. now apply manufacturer_line_spec. }
  split.
  { rewrite get_part_image_spec. destruct (get_part_image_try part_id); eexists; eexists; reflexivity. }
  split; [exact Hcaught|].
  split; [intros res Hres; rewrite get_part_image_spec; now rewrite Hres|].
  split.
  { intros e He. apply Hcaught. unfold get_part_image_try. fold extra_query. now rewrite He. }
  split.
  { intros Hnone. rewrite get_part_image_spec. unfold get_part_image_try. fold extra_query.
    now rewrite (fetchone_drained _ _ _ Hnone). }
  split.
  { intros c0 cols next Hrow.
    pose proof (get_part_image_try_first part_id c0 cols next Hrow) as Htry.
    split; [intros e He; apply Hcaught; rewrite Htry; unfold image_manifest; now rewrite He|].
    split; [intros Hm; apply Hcaught; rewrite Htry; now rewrite Hm|].
    intros images u path Hm Hsel Hpath.
    assert (Hrun : get_part_image_try part_id =
              (let? data := urlopen_read u in
               let? img := Image data (normalize_ext (remove_char "." (splitext_ext path))) in
               Returns (Some img))).
    { rewrite Htry, Hm. cbn [and_then]. rewrite Hsel. cbn [and_then url_extension].
      rewrite Hpath. reflexivity. }
    split; [intros e He; apply Hcaught; rewrite Hrun; now rewrite He|].
    split.
    - intros data e Hd He. apply Hcaught. rewrite Hrun, Hd. cbn [and_then]. now rewrite He.
    - intros data img Hd Hi. rewrite get_part_image_spec, Hrun, Hd. cbn [and_then].
      now rewrite Hi. }
  split.
  { intros e He. unfold get_datasheet_url, bind, lift. fold datasheet_query. now rewrite He. }
  split.
  { intros e id He. unfold get_category, bind, lift. fold category_query. now rewrite He. }
  split.
  { intros e id He. unfold get_manufacturer, bind, lift. fold manufacturer_query. now rewrite He. }
  split.
  { intros e name before He Hw. unfold search_manufacturer. fold manufacturer_search_query.
    unfold bind at 1. rewrite He.
    rewrite (for_each_broken _ manufacturer_line (fun _ => []) before e (Hlines2 before Hw)).
    now rewrite flat_map_nothing, app_nil_r. }
  split.
  { intros e before He Hw. unfold list_categories. fold categories_query.
    unfold bind at 1. rewrite He.
    rewrite (for_each_broken _ category_line (fun _ => []) before e).
    - now rewrite flat_map_nothing, app_nil_r.
    - eapply Forall_impl; [|exact Hw]. intros r Hr log'. now apply category_line_spec. }
  split.
  { intros e before He Hw. unfold list_manufacturers. fold manufacturers_query.
    unfold bind at 1. rewrite He.
    rewrite (for_each_broken _ manufacturer_line (fun _ => []) before e (Hlines2 before Hw)).
    now rewrite flat_map_nothing, app_nil_r. }
  intros e q before He Hw. unfold search_parts. unfold bind at 1. rewrite He.
  rewrite (for_each_broken row_line row_text row_diagnostics before e).
  - reflexivity.
  - eapply Forall_impl; [|exact Hw]. intros r Hr log'. now apply row_line_spec.
Qed.

End StoreFailures.

(** C7 as first stated fails twice.  For a part without a row the
    answer is [None], but no diagnostic reaches [stderr]; and for a
    part whose only image is an archive, in a world whose [Image] takes
    any tag, the extension [gz] is no failure: the image is returned. *)
Lemma absent_row_silent_and_archive_returned :
  get_part_image (rt := Sample.runtime Sample.no_rows) 25804 [] = (Returns None, [])
  /\ ~ (exists e, get_part_image (rt := Sample.runtime Sample.no_rows) 25804 []
                  = (Returns None, [e]))
  /\ url_extension (rt := SampleTables.archive_runtime) (PyStr "https://img.example/C7.tar.gz")
     = Returns "gz"
  /\ get_part_image (rt := SampleTables.archive_runtime) 7 []
     = (Returns (Some ("bytes of https://img.example/C7.tar.gz", "gz")), []).
Proof.
  split; [reflexivity|]. split; [intros [e He]; vm_compute in He; discriminate|].
  split; vm_compute; reflexivity.
Qed.

(** A cursor that yields the sample part and then breaks: the search
    raises the store's error after the diagnostic of the row it dealt
    with, while the lookup that fetches one row returns it. *)
Example cursor_breaks_after_a_row :
  search_parts (rt := Sample.runtime (SampleTables.breaks_after [Sample.oops_part]))
               Sample.resistors []
  = (Raises (OperationalError "database disk image is malformed"), [JSONDecodeError])
  /\ get_manufacturer (rt := Sample.runtime (SampleTables.breaks_after [[PyStr "YAGEO"]])) 40 []
     = (Returns (PyStr "YAGEO"), []).
Proof. split; vm_compute; reflexivity. Qed.

(** ** More on the row presenter *)

Lemma dict_set_keys kvs k x :
  has_key kvs k = true -> map fst (dict_set kvs k x) = map fst kvs.
Proof.
  unfold has_key. induction kvs as [|[k' x'] rest IH]; simpl; [discriminate|].
  destruct (String.eqb k' k); simpl; [reflexivity|]. intros H. now rewrite IH.
Qed.

Lemma blank_none_keys kvs k : map fst (blank_none kvs k) = map fst kvs.
Proof.
  unfold blank_none. destruct (dict_get kvs k) as [v|] eqn:E; [|reflexivity].
  destruct v; try reflexivity. apply dict_set_keys. unfold has_key. now rewrite E.
Qed.

Lemma blank_is_not_none v : blank v <> PyNone.
Proof. destruct v; discriminate. Qed.

Section PresenterMore.
Context {rt : Runtime}.

Lemma diagnostic_length {A} (o : outcome A) : (List.length (diagnostic o) <= 1)%nat.
Proof. destruct o; simpl; lia. Qed.

Lemma row_diagnostics_length (r : row) : (List.length (row_diagnostics r) <= 2)%nat.
Proof.
  unfold row_diagnostics. rewrite length_app.
  pose proof (diagnostic_length (price_try r)). pose proof (diagnostic_length (attributes_try r)). lia.
Qed.

(** Whatever becomes of the line, a row adds its own diagnostics to the
    log and nothing else. *)
Lemma row_line_log (r : row) (log : stderr) :
  snd (row_line r log) = (log ++ row_diagnostics r)%list.
Proof.
  unfold row_line. unfold bind at 1. rewrite price_cell_spec.
  unfold bind at 1. rewrite attributes_cell_spec.
  unfold row_diagnostics. rewrite app_assoc.
  repeat (apply lift_bind_silent; intros). reflexivity.
Qed.

Lemma for_each_row_line_log (c : cursor) : forall log,
  exists added,
    snd (for_each row_line c log) = (log ++ added)%list
    /\ (List.length added <= 2 * List.length (yielded c))%nat.
Proof.
  induction c as [|e|r next IH]; intros log; simpl.
  - exists []. split; [now rewrite app_nil_r|simpl; lia].
  - exists []. split; [now rewrite app_nil_r|simpl; lia].
  - unfold bind at 1. pose proof (row_line_log r log) as Hr.
    pose proof (row_diagnostics_length r) as Hlen.
    destruct (row_line r log) as [[line|e] log1]; simpl in Hr; subst log1.
    + destruct (IH (log ++ row_diagnostics r)%list) as [added [Hadd Hle]].
      exists (row_diagnostics r ++ added)%list. split.
      * unfold bind.
        destruct (for_each row_line next (log ++ row_diagnostics r)%list) as [[ls|e] log2];
          simpl in *; subst log2; now rewrite app_assoc.
      * rewrite length_app. lia.
    + exists (row_diagnostics r). split; [reflexivity|lia].
Qed.

(** X7.  The two operations that print only ever append to [stderr]:
    what was printed before stays in front.  [search_parts] adds at
    most two diagnostics per row drawn from the cursor, whether the
    cursor ends or breaks, and [get_part_image] at most one. *)
Theorem stderr_only_grows (log : stderr) :
  (forall q, exists added,
      snd (search_parts q log) = (log ++ added)%list
      /\ (List.length added
          <= 2 * List.length (yielded (conn_cursor (query_text q) (params q))))%nat
      /\ (forall rows, conn_execute (query_text q) (params q) = Returns rows ->
            (List.length added <= 2 * List.length rows)%nat))
  /\ (forall part_id, exists added,
        snd (get_part_image part_id log) = (log ++ added)%list
        /\ (List.length added <= 1)%nat).
Proof.
  split.
  - intros q. unfold search_parts.
    destruct (for_each_row_line_log (conn_cursor (query_text q) (params q)) log)
      as [added [Hadd Hle]].
    exists added. split; [|split].
    + unfold bind.
      destruct (for_each row_line (conn_cursor (query_text q) (params q)) log)
        as [[ls|e] log1]; simpl in *; now subst.
    + exact Hle.
    + intros rows Hrows. unfold conn_execute in Hrows.
      rewrite (drained_cursor _ _ Hrows) in Hle.
      replace (yielded (rows_then rows Exhausted)) with rows in Hle; [exact Hle|].
      clear. induction rows as [|r rest IH]; simpl; congruence.
  - intros part_id. rewrite get_part_image_spec.
    destruct (get_part_image_try part_id) as [res|e].
    + exists []. split; [simpl; now rewrite app_nil_r|simpl; lia].
    + exists [e]. split; [reflexivity|simpl; lia].
Qed.

(** X8.  The attributes cell of a row is never an exception.  It is
    ["No info"], with the exception printed, when [json.loads] rejects
    column 10, when the decoded value is no mapping ([TypeError]), when
    it has no [attributes] key ([KeyError]) and when [attributes] is no
    mapping ([AttributeError]).  Otherwise it is ["<key>:<str(value)>"]
    for every entry, so a null value shows as [None]; an empty mapping
    gives an empty cell and prints nothing. *)
Theorem attributes_cell_cases (r : row) (log : stderr) :
  attributes_cell r log
  = (Returns (attributes_text r), (log ++ diagnostic (attributes_try r))%list)
  /\ (forall e, attributes_try r = Raises e ->
        attributes_cell r log = (Returns "No info", (log ++ [e])%list))
  /\ (forall c e, row_get r 10 = Returns c -> json_loads c = Raises e ->
        attributes_try r = Raises e)
  /\ (forall c extra, row_get r 10 = Returns c -> json_loads c = Returns extra ->
        attributes_try r
        = match extra with
          | PyDict kvs =>
              match dict_get kvs "attributes" with
              | None => Raises (KeyError "attributes")
              | Some (PyDict entries) =>
                  Returns (join ", " (map (fun kv => fst kv ++ ":" ++ py_str (snd kv)) entries))
              | Some _ => Raises AttributeError
              end
          | _ => Raises TypeError
          end)
  /\ (forall c kvs, row_get r 10 = Returns c -> json_loads c = Returns (PyDict kvs) ->
        dict_get kvs "attributes" = Some (PyDict []) ->
        attributes_cell r log = (Returns "", log))
  /\ (forall k, k ++ ":" ++ py_str PyNone = k ++ ":None").
Proof.
  assert (Hrun : forall c extra, row_get r 10 = Returns c -> json_loads c = Returns extra ->
            attributes_try r
            = match extra with
              | PyDict kvs =>
                  match dict_get kvs "attributes" with
                  | None => Raises (KeyError "attributes")
                  | Some (PyDict entries) =>
                      Returns (join ", " (map (fun kv => fst kv ++ ":" ++ py_str (snd kv)) entries))
                  | Some _ => Raises AttributeError
                  end
              | _ => Raises TypeError
              end).
  { intros c extra Hc Hx. unfold attributes_try. rewrite Hc. cbn [and_then]. rewrite Hx.
    cbn [and_then]. unfold render_attributes.
    destruct extra as [| | | | | |l|kvs]; try reflexivity. cbn [getitem_key].
    destruct (dict_get kvs "attributes") as [[| | | | | |l|entries]|]; reflexivity. }
  split; [apply attributes_cell_spec|].
  split; [intros e He; rewrite attributes_cell_spec; unfold attributes_text; now rewrite He|].
  split; [intros c e Hc He; unfold attributes_try; rewrite Hc; cbn [and_then]; now rewrite He|].
  split; [exact Hrun|]. split; [|reflexivity].
  intros c kvs Hc Hx Hattr. rewrite attributes_cell_spec. unfold attributes_text.
  rewrite (Hrun c _ Hc Hx), Hattr. simpl. now rewrite app_nil_r.
Qed.

(** X9.  When the loop body gets through a tier, the tier it leaves
    has the same keys in the same order; only [qFrom] and [qTo] may have
    changed, each from [None] to the empty string, so neither is [None]
    afterwards. *)
Theorem tier_update_keeps_keys (kvs : list (string * value)) (text : string) (p' : value) :
  render_tier (PyDict kvs) = Returns (text, p') ->
  exists kvs',
    p' = PyDict kvs'
    /\ map fst kvs' = map fst kvs
    /\ (forall k, k <> "qFrom" -> k <> "qTo" -> dict_get kvs' k = dict_get kvs k)
    /\ dict_get kvs' "qFrom" = option_map blank (dict_get kvs "qFrom")
    /\ dict_get kvs' "qTo" = option_map blank (dict_get kvs "qTo")
    /\ dict_get kvs' "qFrom" <> Some PyNone
    /\ dict_get kvs' "qTo" <> Some PyNone.
Proof.
  rewrite render_tier_dict.
  destruct (dict_get kvs "qFrom") as [a|] eqn:Ea; [|discriminate].
  destruct (dict_get kvs "qTo") as [b|] eqn:Eb; [|discriminate].
  destruct (dict_get kvs "price") as [c|] eqn:Ec; [|discriminate].
  intros H. injection H as _ <-. unfold tier_after.
  exists (blank_none (blank_none kvs "qFrom") "qTo").
  assert (Hfrom : dict_get (blank_none (blank_none kvs "qFrom") "qTo") "qFrom" = Some (blank a)).
  { rewrite dict_get_blank_other by discriminate. now rewrite dict_get_blank_same, Ea. }
  assert (Hto : dict_get (blank_none (blank_none kvs "qFrom") "qTo") "qTo" = Some (blank b)).
  { rewrite dict_get_blank_same. now rewrite dict_get_blank_other, Eb by discriminate. }
  split; [reflexivity|]. split; [now rewrite !blank_none_keys|].
  split.
  { intros k H1 H2. rewrite dict_get_blank_other by congruence.
    now rewrite dict_get_blank_other by congruence. }
  rewrite Hfrom, Hto. repeat split; try reflexivity;
    intros H; injection H as H; now apply blank_is_not_none in H.
Qed.

(** X10.  The loop stops at the first tier it cannot read: the tiers
    before it are dropped and the ones after it are not looked at.  The
    exception is that of this tier, a [KeyError] for the first of
    [qFrom], [qTo], [price] it lacks or a [TypeError] when it is no
    mapping, and it is what the price cell prints before falling back. *)
Theorem first_unreadable_tier_decides (good : list value) (bad : value) (rest : list value) :
  forallb tier_readable good = true ->
  tier_readable bad = false ->
  render_tier bad = Raises (tier_error bad)
  /\ (forall price, price_loop (good ++ bad :: rest) price = Raises (tier_error bad))
  /\ (forall r c log, row_get r 9 = Returns c ->
        json_loads c = Returns (PyList (good ++ bad :: rest)) ->
        price_cell r log = (Returns "No info", (log ++ [tier_error bad])%list)).
Proof.
  intros Hgood Hbad.
  assert (Htier : render_tier bad = Raises (tier_error bad)).
  { destruct bad as [| | | | | |l|kvs]; try reflexivity.
    rewrite render_tier_dict. revert Hbad. unfold tier_readable, tier_error, has_key.
    destruct (dict_get kvs "qFrom"), (dict_get kvs "qTo"), (dict_get kvs "price");
      try discriminate; reflexivity. }
  assert (Hloop : forall price, price_loop (good ++ bad :: rest) price = Raises (tier_error bad)).
  { induction good as [|g good IH]; intros price; simpl.
    - now rewrite Htier.
    - simpl in Hgood. apply andb_prop in Hgood. destruct Hgood as [Hg Hgood].
      rewrite (render_tier_readable g Hg). cbn [and_then]. now rewrite (IH Hgood). }
  split; [exact Htier|]. split; [exact Hloop|].
  intros r c log Hc Hv. rewrite price_cell_spec. unfold price_text, price_try.
  rewrite Hc. cbn [and_then]. rewrite Hv. cbn [and_then]. unfold render_prices.
  cbn [py_iter and_then]. now rewrite Hloop.
Qed.

(** X11.  Tiers need not be well formed to be rendered: whenever every
    tier has its three keys the cell is the join of the tier lines, in
    which each value is shown by [str()] and only a [None] bound is
    blanked, so a null price reads [None]; keys other than the three
    play no part.  A decoded value that is an empty list, an empty
    mapping or an empty string gives an empty cell, not the fallback. *)
Theorem readable_tiers_render (r : row) (c : value) (log : stderr) :
  row_get r 9 = Returns c ->
  (forall tiers, json_loads c = Returns (PyList tiers) -> forallb tier_readable tiers = true ->
     price_cell r log = (Returns (join ", " (map tier_line tiers)), log))
  /\ (forall a b kvs, dict_get kvs "qFrom" = Some a -> dict_get kvs "qTo" = Some b ->
        dict_get kvs "price" = Some PyNone ->
        tier_line (PyDict kvs) = py_str (blank a) ++ "-" ++ py_str (blank b) ++ " NoneUSD/pc")
  /\ (forall kvs k x, k <> "qFrom" -> k <> "qTo" -> k <> "price" ->
        tier_line (PyDict (dict_set kvs k x)) = tier_line (PyDict kvs)
        /\ tier_readable (PyDict (dict_set kvs k x)) = tier_readable (PyDict kvs))
  /\ (forall empty, json_loads c = Returns empty ->
        empty = PyList [] \/ empty = PyDict [] \/ empty = PyStr "" ->
        price_cell r log = (Returns "", log)).
Proof.
  intros Hc. split; [|split; [|split]].
  - intros tiers Hv Hread. rewrite price_cell_spec. unfold price_text, price_try.
    rewrite Hc. cbn [and_then]. rewrite Hv. cbn [and_then].
    rewrite (render_prices_list tiers Hread). cbn [and_then fst diagnostic]. now rewrite app_nil_r.
  - intros a b kvs Ha Hb Hp. unfold tier_line. now rewrite Ha, Hb, Hp.
  - intros kvs k x H1 H2 H3. unfold tier_line, tier_readable, has_key.
    now rewrite !dict_get_set_other by congruence.
  - intros empty Hv Hempty. rewrite price_cell_spec. unfold price_text, price_try.
    rewrite Hc. cbn [and_then]. rewrite Hv. cbn [and_then].
    destruct Hempty as [->|[->| ->]]; cbn; now rewrite app_nil_r.
Qed.

(** X12.  Cells are written as they are, without escaping: the line of
    a row holds twelve vertical bars of its own plus every bar that
    occurs in the text of its nine plain cells and of its two rendered
    cells. *)
Theorem line_bars_are_not_escaped (r : row) (log : stderr) :
  wide_enough r ->
  exists line,
    fst (row_line r log) = Returns line
    /\ bars line
       = (12 + bars_in_cells 9 r + bars (price_text r) + bars (attributes_text r))%nat.
Proof.
  intros Hw. exists (row_text r). rewrite (row_line_spec r log Hw). split; [reflexivity|].
  unfold wide_enough in Hw.
  destruct r as [|c0 [|c1 [|c2 [|c3 [|c4 [|c5 [|c6 [|c7 [|c8 rest]]]]]]]]]; simpl in Hw; try lia.
  unfold row_text, bars_in_cells, bars. cbn [firstn map list_sum].
  repeat (rewrite count_char_append; cbn [count_char Ascii.eqb Bool.eqb]).
  unfold list_sum. cbn [fold_right]. lia.
Qed.

End PresenterMore.

(** ** More on the image selector and the filter compiler *)

Lemma count_char_removed c s : count_char c (remove_char c s) = 0%nat.
Proof.
  induction s as [|a s IH]; simpl; [reflexivity|].
  destruct (Ascii.eqb a c) eqn:E; simpl; [exact IH|]. now rewrite E.
Qed.

Lemma normalize_ext_tag e :
  count_char "." e = 0%nat ->
  normalize_ext e <> "jpg" /\ count_char "." (normalize_ext e) = 0%nat.
Proof.
  intros He. unfold normalize_ext. destruct (String.eqb e "jpg") eqn:E.
  - split; [discriminate|reflexivity].
  - split; [|exact He]. intros H. apply String.eqb_neq in E. contradiction.
Qed.

Lemma read_shape_query (q : SearchQuery) : read_shape (query_text q) = filter_shape q.
Proof. by_filter_cases q. Qed.

Section SelectorMore.
Context {rt : Runtime}.

(** X13.  Every image [get_part_image] returns was built by [Image]
    from the bytes of one fetch and a format tag that is never [jpg] and
    holds no dot; returning an image prints nothing. *)
Theorem returned_image_tag (part_id : Z) (log log' : stderr) (img : image) :
  get_part_image part_id log = (Returns (Some img), log') ->
  log' = log
  /\ exists u data tag,
       urlopen_read u = Returns data
       /\ Image data tag = Returns img
       /\ tag <> "jpg"
       /\ count_char "." tag = 0%nat.
Proof.
  rewrite get_part_image_spec.
  destruct (get_part_image_try part_id) as [res|e] eqn:Htry; [|discriminate].
  intros H. injection H as -> <-. split; [reflexivity|].
  revert Htry. unfold get_part_image_try.
  destruct (fetchone _) as [first|e]; [|discriminate]. cbn [and_then].
  destruct (found first) as [result|]; [|discriminate].
  destruct (row_get result 0) as [c0|e]; [|discriminate]. cbn [and_then].
  destruct (image_manifest c0) as [images|e]; [|discriminate]. cbn [and_then].
  destruct (select_url images) as [url|e]; [|discriminate]. cbn [and_then].
  destruct (url_extension url) as [ext|e] eqn:Hext; [|discriminate]. cbn [and_then].
  destruct (fetch url) as [data|e] eqn:Hfetch; [|discriminate]. cbn [and_then].
  destruct (Image data (normalize_ext ext)) as [img'|e] eqn:Himg; [|discriminate].
  cbn [and_then]. intros H. injection H as ->.
  destruct url as [|b|z|f|u|b|l|d]; try discriminate Hfetch.
  cbn [fetch] in Hfetch. cbn [url_extension] in Hext.
  destruct (urlparse_path u) as [path|e]; [|discriminate Hext].
  cbn [and_then] in Hext. injection Hext as <-.
  exists u, data, (normalize_ext (remove_char "." (splitext_ext path))).
  destruct (normalize_ext_tag _ (count_char_removed "." (splitext_ext path))) as [H1 H2].
  repeat split; assumption.
Qed.

(** X14.  The selector takes the upper median of the manifest: the
    value that has as many entries after it as before it, or one fewer,
    whatever the keys are.  Of two entries it takes the second. *)
Theorem select_url_upper_median (before after : list (string * value)) (k : string) (url : value) :
  (List.length after <= List.length before <= List.length after + 1)%nat ->
  select_url (PyDict (before ++ (k, url) :: after)) = Returns url
  /\ (forall k1 k2 u1 u2, select_url (PyDict [(k1, u1); (k2, u2)]) = Returns u2).
Proof.
  intros Hlen. split; [|reflexivity]. apply select_url_middle.
  rewrite map_app, length_app. cbn [map List.length snd].
  replace ((List.length before + S (List.length after)) / 2)%nat with (List.length before).
  - rewrite nth_error_app2 by (rewrite length_map; lia).
    rewrite length_map, Nat.sub_diag. reflexivity.
  - apply Nat.div_unique with (r := (List.length after + 1 - List.length before)%nat); lia.
Qed.

(** X15.  Of the decoded [extra] only [images[0]] counts.  Without an
    [images] key, with an empty [images] list, with a first document
    that is no mapping, or with a middle value that is no text, the
    caller gets [None] and the exception is printed; documents after
    the first one are never looked at. *)
Theorem manifest_cases (part_id : Z) (c0 : value) (cols : row) (rest : list row)
    (kvs : list (string * value)) (log : stderr) :
  conn_execute extra_query [PyInt part_id] = Returns ((c0 :: cols) :: rest) ->
  json_loads c0 = Returns (PyDict kvs) ->
  (dict_get kvs "images" = None ->
     get_part_image part_id log = (Returns None, (log ++ [KeyError "images"])%list))
  /\ (dict_get kvs "images" = Some (PyList []) ->
        get_part_image part_id log = (Returns None, (log ++ [IndexError])%list))
  /\ (forall d others, dict_get kvs "images" = Some (PyList (d :: others)) ->
        image_manifest c0 = Returns d
        /\ (is_dict d = false ->
              get_part_image part_id log = (Returns None, (log ++ [AttributeError])%list))
        /\ (forall url, select_url d = Returns url -> is_text url = false ->
              exists e, get_part_image part_id log = (Returns None, (log ++ [e])%list))).
Proof.
  intros Hrow Hjson.
  assert (Htry := get_part_image_try_row part_id c0 cols rest Hrow).
  split; [|split].
  - intros Hk. rewrite get_part_image_spec, Htry. unfold image_manifest. rewrite Hjson.
    cbn [and_then getitem_key]. now rewrite Hk.
  - intros Hk. rewrite get_part_image_spec, Htry. unfold image_manifest. rewrite Hjson.
    cbn [and_then getitem_key]. now rewrite Hk.
  - intros d others Hk.
    assert (Hm : image_manifest c0 = Returns d).
    { unfold image_manifest. rewrite Hjson. cbn [and_then getitem_key]. now rewrite Hk. }
    split; [exact Hm|]. split.
    + intros Hd. rewrite get_part_image_spec, Htry, Hm. cbn [and_then].
      destruct d; try discriminate; reflexivity.
    + intros url Hsel Hurl. rewrite get_part_image_spec, Htry, Hm. cbn [and_then]. rewrite Hsel.
      cbn [and_then]. destruct url; try discriminate; cbn [url_extension];
        try (destruct (truthy _)); eexists; reflexivity.
Qed.

End SelectorMore.

(** X16.  The text of the query tells the shape of the filter and
    nothing more: two records compile to the same text exactly when the
    same fields are given and the two flags agree, and the shape can be
    read back from the text by looking for the predicates. *)
Theorem query_text_tells_shape (q1 q2 : SearchQuery) :
  (query_text q1 = query_text q2 <-> filter_shape q1 = filter_shape q2)
  /\ read_shape (query_text q1) = filter_shape q1.
Proof.
  split; [|apply read_shape_query]. split.
  - intros H. rewrite <- (read_shape_query q1), <- (read_shape_query q2). now rewrite H.
  - intros H. rewrite (query_text_of_shape q1), (query_text_of_shape q2). now rewrite H.
Qed.

(** ** The further properties on the sample data *)

(** X1 on the sample categories; the second has no subcategory. *)
Lemma list_categories_sample :
  list_categories (rt := Sample.runtime (Sample.answer SampleTables.categories)) []
  = (Returns ("|Category ID|Category Name|Subcategory Name|" ++ nl ++ "|--|--|--|" ++ nl
              ++ "|1|Resistors|Chip Resistor - Surface Mount|" ++ nl ++ "|2|Capacitors|None|"),
     []).
Proof.
  refine (proj1 (list_categories_table (rt := Sample.runtime (Sample.answer SampleTables.categories))
                   SampleTables.categories [] eq_refl _)).
  repeat constructor.
Defined.

(** X2 on the sample manufacturers. *)
Lemma list_manufacturers_sample :
  list_manufacturers (rt := Sample.runtime (Sample.answer SampleTables.manufacturers)) []
  = (Returns ("|Manufacturer ID|Manufacturer Name|" ++ nl ++ "|--|--|" ++ nl
              ++ "|12|UNI-ROYAL(Uniroyal Elec)|" ++ nl ++ "|40|YAGEO|"),
     []).
Proof.
  refine (proj1 (list_manufacturers_table
                   (rt := Sample.runtime (Sample.answer SampleTables.manufacturers))
                   SampleTables.manufacturers [] eq_refl _)).
  repeat constructor.
Defined.

(** X3 on a category without a subcategory. *)
Lemma get_category_sample :
  get_category (rt := Sample.runtime (Sample.answer [[PyStr "Capacitors"; PyNone]])) 2 []
  = (Returns (PyStr "Category: Capacitors, Subcategory: None"), []).
Proof.
  refine (proj1 (get_category_answer (rt := Sample.runtime (Sample.answer [[PyStr "Capacitors"; PyNone]]))
                   2 [[PyStr "Capacitors"; PyNone]] [] eq_refl _)
            (PyStr "Capacitors") PyNone [] [] eq_refl).
  repeat constructor.
Defined.

(** X4 on a manufacturer row. *)
Lemma get_manufacturer_sample :
  get_manufacturer (rt := Sample.runtime (Sample.answer [[PyStr "YAGEO"]])) 40 []
  = (Returns (PyStr "YAGEO"), []).
Proof.
  refine (proj1 (get_manufacturer_answer (rt := Sample.runtime (Sample.answer [[PyStr "YAGEO"]]))
                   40 [[PyStr "YAGEO"]] [] eq_refl _)
            (PyStr "YAGEO") [] [] eq_refl).
  repeat constructor.
Defined.

(** X5 on the sample manufacturers: no separator line under the names. *)
Lemma search_manufacturer_sample :
  search_manufacturer (rt := Sample.runtime (Sample.answer SampleTables.manufacturers)) "A" []
  = (Returns (PyStr ("|Manufacturer ID|Manufacturer Name|" ++ nl
                     ++ "|12|UNI-ROYAL(Uniroyal Elec)|" ++ nl ++ "|40|YAGEO|")),
     []).
Proof.
  refine (proj2 (search_manufacturer_table
                   (rt := Sample.runtime (Sample.answer SampleTables.manufacturers))
                   "A" SampleTables.manufacturers [] eq_refl _) _).
  - repeat constructor.
  - discriminate.
Defined.

(** X9 on the tier with an open lower bound. *)
Lemma tier_update_sample :
  exists kvs',
    PyDict [("qFrom", PyStr ""); ("qTo", PyInt 10); ("price", PyFloat "1.5")] = PyDict kvs'
    /\ map fst kvs' = ["qFrom"; "qTo"; "price"].
Proof.
  destruct (tier_update_keeps_keys (rt := Sample.runtime Sample.no_rows)
              [("qFrom", PyNone); ("qTo", PyInt 10); ("price", PyFloat "1.5")]
              "-10 1.5USD/pc"
              (PyDict [("qFrom", PyStr ""); ("qTo", PyInt 10); ("price", PyFloat "1.5")])
              eq_refl)
    as [kvs' [H1 [H2 _]]].
  exists kvs'. split; assumption.
Defined.

(** X10 on a good tier followed by one without a price. *)
Lemma first_unreadable_tier_sample :
  price_loop (rt := Sample.runtime Sample.no_rows)
             (Sample.price_tiers ++ [SampleTables.tier_without_price]) []
  = Raises (KeyError "price").
Proof.
  exact (proj1 (proj2 (first_unreadable_tier_decides (rt := Sample.runtime Sample.no_rows)
                         Sample.price_tiers SampleTables.tier_without_price []
                         eq_refl eq_refl)) []).
Defined.

(** X11 on the sample part. *)
Lemma readable_tiers_sample :
  price_cell (rt := Sample.runtime Sample.no_rows) Sample.good_part []
  = (Returns "-10 1.5USD/pc", []).
Proof.
  exact (proj1 (readable_tiers_render (rt := Sample.runtime Sample.no_rows)
                  Sample.good_part (PyStr Sample.price_doc) [] eq_refl)
           Sample.price_tiers eq_refl eq_refl).
Defined.

(** X12 on a part whose manufacturer part number holds a bar: thirteen
    bars in its line. *)
Lemma line_bars_sample :
  exists line,
    fst (row_line (rt := Sample.runtime Sample.no_rows) SampleTables.barred_part []) = Returns line
    /\ bars line = 13%nat.
Proof.
  refine (line_bars_are_not_escaped (rt := Sample.runtime Sample.no_rows)
            SampleTables.barred_part [] _).
  unfold wide_enough. simpl. lia.
Defined.

(** X13 on the sample part with its three images. *)
Lemma returned_image_tag_sample :
  exists u data tag,
    Sample.download u = Returns data
    /\ Returns (A := string * string) (data, tag)
       = Returns ("bytes of https://img.example/224/C25804.jpg", "jpeg")
    /\ tag <> "jpg"
    /\ count_char "." tag = 0%nat.
Proof.
  exact (proj2 (returned_image_tag
                  (rt := Sample.runtime (Sample.answer [[PyStr Sample.extra_doc]]))
                  25804 [] [] ("bytes of https://img.example/224/C25804.jpg", "jpeg") eq_refl)).
Defined.

(** X14 on the three sample images: one before, one after. *)
Lemma select_url_sample :
  select_url (PyDict Sample.image_urls) = Returns (PyStr "https://img.example/224/C25804.jpg").
Proof.
  refine (proj1 (select_url_upper_median
                   [("96x96", PyStr "https://img.example/96/C25804.jpg")]
                   [("900x900", PyStr "https://img.example/900/C25804.jpg")]
                   "224x224" (PyStr "https://img.example/224/C25804.jpg") _)).
  simpl. lia.
Defined.

(** X15 on a part whose only image document is empty. *)
Lemma manifest_sample :
  image_manifest (rt := Sample.runtime (Sample.answer [[PyStr Sample.no_images_doc]]))
                 (PyStr Sample.no_images_doc)
  = Returns (PyDict []).
Proof.
  exact (proj1 (proj2 (proj2 (manifest_cases
                  (rt := Sample.runtime (Sample.answer [[PyStr Sample.no_images_doc]]))
                  25804 (PyStr Sample.no_images_doc) [] [] [("images", PyList [PyDict []])] []
                  eq_refl eq_refl)) (PyDict []) [] eq_refl)).
Defined.
